(** * streamget example: concurrent capture of a Douyin live stream

    A shallow embedding of [example/download_douyin_stream.py]: the
    per-quality capture session [download_live_stream], the command line
    built by [download_with_ffmpeg], and the fan-out in [main]. *)

From Stdlib Require Import ZArith NArith List Bool Lia.
From Stdlib Require Import Strings.Ascii Strings.String Strings.Byte DecimalString.
From stdpp Require Import base option list countable gmap.
Import ListNotations.

Local Open Scope Z_scope.
Local Open Scope list_scope.

(** ** Python strings

    A Python [str] is a sequence of Unicode code points; slices such as
    [s[:50]] count code points, so a [str] is a list of code points and
    [bytes] is a list of bytes. *)

Module PyStr.

Abbreviation char := N (only parsing).
Abbreviation pystr := (list N) (only parsing).
Abbreviation bytes := (list byte) (only parsing).

(** *** [bytes.decode('utf-8', errors='ignore')]

    The decoder keeps the code point being assembled, the number of
    continuation bytes still needed and the range allowed for the next
    one.  A malformed sequence is dropped and the offending byte is looked
    at again as the start of a new sequence. *)

Record dstate : Type := DState {
  d_cp : N;
  d_need : nat;
  d_lo : N;
  d_hi : N;
}.

Definition d_idle : dstate := DState 0 0 128 191.

Definition in_range (lo hi b : N) : bool := (lo <=? b)%N && (b <=? hi)%N.

(** A byte met while no sequence is pending. *)
Definition decode_lead (b : N) : dstate * list N :=
  if (b <=? 127)%N then (d_idle, [b])
  else if in_range 194 223 b then (DState (N.land b 31) 1 128 191, [])
  else if in_range 224 239 b then
    (DState (N.land b 15) 2
            (if (b =? 224)%N then 160 else 128)
            (if (b =? 237)%N then 159 else 191), [])
  else if in_range 240 244 b then
    (DState (N.land b 7) 3
            (if (b =? 240)%N then 144 else 128)
            (if (b =? 244)%N then 143 else 191), [])
  else (d_idle, []).

Definition decode_byte (st : dstate) (b : N) : dstate * list N :=
  match d_need st with
  | O => decode_lead b
  | S n =>
      if in_range (d_lo st) (d_hi st) b then
        let cp := N.lor (N.shiftl (d_cp st) 6) (N.land b 63) in
        match n with
        | O => (d_idle, [cp])
        | S _ => (DState cp n 128 191, [])
        end
      else decode_lead b
  end.

Fixpoint decode_from (st : dstate) (bs : bytes) : pystr :=
  match bs with
  | [] => []
  | b :: rest =>
      let '(st', out) := decode_byte st (Byte.to_N b) in
      out ++ decode_from st' rest
  end.

Definition decode_utf8_ignore (bs : bytes) : pystr := decode_from d_idle bs.

(** A literal of the source, written as its UTF-8 text. *)
Definition lit (s : string) : pystr :=
  decode_utf8_ignore (list_byte_of_string s).

(** *** Slices and searches *)

(** [s[:n]] *)
Definition slice_to (n : nat) (s : pystr) : pystr := firstn n s.

(** [s[-n:]] for [n > 0] *)
Definition slice_last (n : nat) (s : pystr) : pystr :=
  skipn (length s - n) s.

Fixpoint startswith (p s : pystr) : bool :=
  match p, s with
  | [], _ => true
  | _ :: _, [] => false
  | a :: p', b :: s' => (a =? b)%N && startswith p' s'
  end.

(** [s.endswith(suffix)] *)
Definition endswith (s suffix : pystr) : bool :=
  startswith (rev suffix) (rev s).

(** [needle in s] *)
Fixpoint contains (needle s : pystr) : bool :=
  startswith needle s ||
  match s with
  | [] => false
  | _ :: s' => contains needle s'
  end.

(** [s.replace(old, new)] for one-character [old] and [new] *)
Definition replace_char (old new : char) (s : pystr) : pystr :=
  map (fun c => if (c =? old)%N then new else c) s.

(** [sep.join(parts)] *)
Fixpoint join (sep : pystr) (parts : list pystr) : pystr :=
  match parts with
  | [] => []
  | [p] => p
  | p :: rest => p ++ sep ++ join sep rest
  end.

Definition newline : N := 10%N.

(** [str(n)] for an [int] *)
Definition str_int (z : Z) : pystr :=
  map N_of_ascii (list_ascii_of_string (NilZero.string_of_int (Z.to_int z))).

(** An f-string: the concatenation of its pieces. *)
Definition fstr (parts : list pystr) : pystr := concat parts.

End PyStr.
Export PyStr.


(** ** Python values, exceptions and paths *)

Module Py.

(** The values a resolver response can hold.  [VObj] stands for a nested
    list or dict, kept by its type name and printed form.  Floats are not
    modelled. *)
Inductive pyval : Type :=
| VNone
| VBool (b : bool)
| VInt (z : Z)
| VStr (s : pystr)
| VObj (tyname repr : pystr).

(** [str(v)], as an f-string field prints it *)
Definition py_str (v : pyval) : pystr :=
  match v with
  | VNone => lit "None"
  | VBool true => lit "True"
  | VBool false => lit "False"
  | VInt z => str_int z
  | VStr s => s
  | VObj _ repr => repr
  end.

(** [type(v).__name__] *)
Definition type_name (v : pyval) : pystr :=
  match v with
  | VNone => lit "NoneType"
  | VBool _ => lit "bool"
  | VInt _ => lit "int"
  | VStr _ => lit "str"
  | VObj tyname _ => tyname
  end.

(** [v != n] for an [int] literal [n]; [True] and [False] compare as 1 and 0. *)
Definition py_ne_int (v : pyval) (n : Z) : bool :=
  match v with
  | VInt z => negb (z =? n)
  | VBool b => negb ((if b then 1 else 0) =? n)
  | _ => true
  end.

(** A resolver response: a [dict] with [str] keys. *)
Abbreviation dict := (gmap (list N) pyval) (only parsing).

(** [d.get(key, dflt)] and [d.get(key)] *)
Definition dict_get (d : dict) (key : pystr) (dflt : pyval) : pyval :=
  default dflt (d !! key).

Definition dict_get_none (d : dict) (key : pystr) : pyval :=
  dict_get d key VNone.

(** Truth value of an [Optional[str]] and of an [Optional[int]] *)
Definition truthy_str (s : option pystr) : bool :=
  match s with
  | Some (_ :: _) => true
  | _ => false
  end.

Definition truthy_int (n : option Z) : bool :=
  match n with
  | Some z => negb (z =? 0)
  | None => false
  end.

(** [str(n)] for an [Optional[int]] *)
Definition str_opt_int (n : option Z) : pystr :=
  match n with
  | Some z => str_int z
  | None => lit "None"
  end.

(** [a or b] *)
Definition py_or (a b : option pystr) : option pystr :=
  if truthy_str a then a else b.

(** Exceptions, by what the [except] clauses of the source tell apart:
    instances of [Exception] (with their [str(e)]), [KeyboardInterrupt], and
    the other direct [BaseException]s ([SystemExit], [GeneratorExit],
    [asyncio.CancelledError]). *)
Inductive exn : Type :=
| PyException (msg : pystr)
| KeyboardInterrupt
| OtherBaseException.

Definition is_Exception (e : exn) : bool :=
  match e with
  | PyException _ => true
  | _ => false
  end.

(** [str(e)] *)
Definition exn_str (e : exn) : pystr :=
  match e with
  | PyException msg => msg
  | _ => []
  end.

(** The [AttributeError] of a method looked up on a value that lacks it. *)
Definition AttributeError (v : pyval) (attr : pystr) : exn :=
  PyException (fstr [lit "'"; type_name v; lit "' object has no attribute '";
                     attr; lit "'"]).

(** *** [pathlib.Path], POSIX flavour *)

Record Path : Type := MkPath {
  p_root : pystr;
  p_parts : list pystr;
}.

Definition slash : N := 47%N.

(** [s.split('/')] *)
Fixpoint split_slash (s : pystr) : list pystr :=
  match s with
  | [] => [[]]
  | c :: s' =>
      if (c =? slash)%N then [] :: split_slash s'
      else match split_slash s' with
           | [] => [[c]]
           | p :: ps => (c :: p) :: ps
           end
  end.

Definition is_part (p : pystr) : bool :=
  match p with
  | [] => false
  | [c] => negb (c =? 46)%N
  | _ => true
  end.

Definition root_of (s : pystr) : pystr :=
  match s with
  | a :: b :: c :: _ =>
      if (a =? slash)%N then
        if (b =? slash)%N && negb (c =? slash)%N then [slash; slash]
        else [slash]
      else []
  | [a; b] =>
      if (a =? slash)%N then
        if (b =? slash)%N then [slash; slash] else [slash]
      else []
  | [a] => if (a =? slash)%N then [slash] else []
  | [] => []
  end.

(** [Path(s)] *)
Definition path_of (s : pystr) : Path :=
  MkPath (root_of s) (filter (fun p => is_part p = true) (split_slash s)).

(** [p / s] *)
Definition path_div (p : Path) (s : pystr) : Path :=
  let q := path_of s in
  match p_root q with
  | [] => MkPath (p_root p) (p_parts p ++ p_parts q)
  | _ :: _ => q
  end.

(** [str(p)] *)
Definition path_str (p : Path) : pystr :=
  match p_root p, p_parts p with
  | [], [] => lit "."
  | r, ps => r ++ join [slash] ps
  end.

(** [p.name] *)
Definition path_name (p : Path) : pystr := default [] (last (p_parts p)).

End Py.
Export Py.

(** ** Coroutines

    An [async def] is a tree of the effects it performs: lines printed, and
    calls to the collaborators (the resolver library, the clock, the file
    system, the capture process), each answered by a value or by a raised
    exception. *)

Module Coro.

(** Fields of the resolver's [StreamData] that the session reads. *)
Record StreamData : Type := MkStreamData {
  flv_url : option pystr;
  m3u8_url : option pystr;
}.

(** What [process.communicate()] leaves behind. *)
Record finished : Type := MkFinished {
  stdout : bytes;
  stderr : bytes;
  returncode : Z;
}.

(** Object identities of the resolver client and of a spawned process. *)
Abbreviation client := N (only parsing).
Abbreviation process := N (only parsing).

Inductive call : Type -> Type :=
| Mkdir (output_dir : pystr) : call unit
    (* Path(output_dir).mkdir(parents=True, exist_ok=True) *)
| NewDouyinLiveStream (cookies : option pystr) : call client
| FetchWebStreamData (c : client) (url : pystr) : call dict
| FetchAppStreamData (c : client) (url : pystr) : call dict
| FetchStreamUrl (c : client) (data : dict) (quality : pystr) : call StreamData
| NowStrftime : call pystr
    (* datetime.now().strftime("%Y%m%d_%H%M%S") *)
| CreateSubprocessExec (cmd : list pystr) : call process
| Communicate (p : process) : call finished.

Inductive result (X : Type) : Type :=
| Ok (x : X)
| Err (e : exn).
Arguments Ok {X} x.
Arguments Err {X} e.

Inductive coro (R : Type) : Type :=
| Ret (r : R)
| Raise (e : exn)
| Stdout (line : pystr) (k : coro R)
| Traceback (e : exn) (k : coro R)
| Call {X : Type} (c : call X) (k : result X -> coro R).
Arguments Ret {R} r.
Arguments Raise {R} e.
Arguments Stdout {R} line k.
Arguments Traceback {R} e k.
Arguments Call {R X} c k.

Fixpoint bind {A B : Type} (m : coro A) (f : A -> coro B) : coro B :=
  match m with
  | Ret a => f a
  | Raise e => Raise e
  | Stdout line k => Stdout line (bind k f)
  | Traceback e k => Traceback e (bind k f)
  | Call c k => Call c (fun a => bind (k a) f)
  end.

#[export] Instance coro_ret : MRet coro := fun _ r => Ret r.
#[export] Instance coro_bind : MBind coro := fun _ _ f m => bind m f.

(** [print(line)] *)
Definition print (line : pystr) : coro unit := Stdout line (Ret tt).

(** [traceback.print_exc()] inside the handler of [e] *)
Definition print_exc (e : exn) : coro unit := Traceback e (Ret tt).

(** A call whose exception, if any, is raised in the caller. *)
Definition perform {X : Type} (c : call X) : coro X :=
  Call c (fun a => match a with Ok x => Ret x | Err e => Raise e end).

(** [try: body / except ...: handler]: [handler e] is [None] when no
    [except] clause matches [e]. *)
Fixpoint try_except {R : Type} (body : coro R)
    (handler : exn -> option (coro R)) : coro R :=
  match body with
  | Ret r => Ret r
  | Raise e => match handler e with
               | Some h => h
               | None => Raise e
               end
  | Stdout line k => Stdout line (try_except k handler)
  | Traceback e k => Traceback e (try_except k handler)
  | Call c k => Call c (fun a => try_except (k a) handler)
  end.

End Coro.
Export Coro.

(** ** The program *)

Module Douyin.

Local Open Scope stdpp_scope.

(** [[quality]] followed by the rest of a log line *)
Definition tagged (quality : pystr) (rest : list pystr) : pystr :=
  fstr (lit "[" :: quality :: lit "] " :: rest).

(** The argument list built by [download_with_ffmpeg]. *)
Definition ffmpeg_cmd (stream_url output_file : pystr) (duration : option Z)
    : list pystr :=
  let cmd := [lit "ffmpeg";
              lit "-i"; stream_url;
              lit "-c"; lit "copy";
              lit "-bsf:a"; lit "aac_adtstoasc"] in
  let cmd := if truthy_int duration
             then cmd ++ [lit "-t"; str_opt_int duration]
             else cmd in
  cmd ++ [lit "-f";
          if endswith output_file (lit ".mp4") then lit "mp4" else lit "flv";
          lit "-y";
          output_file].

(** [error_msg] of a capture process that exited with a non-zero code. *)
Definition error_msg (fin : finished) : pystr :=
  slice_to 200 (decode_utf8_ignore (stderr fin)).

Definition download_with_ffmpeg (stream_url output_file : pystr)
    (duration : option Z) (quality : pystr) : coro pyval :=
  let cmd := ffmpeg_cmd stream_url output_file duration in
  proc ← perform (CreateSubprocessExec cmd);
  fin ← perform (Communicate proc);
  if returncode fin =? 0 then
    print (tagged quality [lit "✅ 录制完成: ";
                           path_name (path_of output_file)]);;
    mret VNone
  else
    print (tagged quality [lit "❌ FFmpeg 错误: "; error_msg fin]);;
    mret VNone.

(** The message of the exception raised when both strategies failed. *)
Definition both_failed_msg (e1 e2 : exn) : pystr :=
  fstr [lit "Web和App方法都失败: Web="; slice_to 50 (exn_str e1);
        lit ", App="; slice_to 50 (exn_str e2)].

(** Lines 30-38: the web strategy, then the app strategy. *)
Definition fetch_data (douyin_stream : client) (url quality : pystr)
    : coro dict :=
  try_except (perform (FetchWebStreamData douyin_stream url))
    (fun e1 =>
       if is_Exception e1 then Some (
         print (tagged quality [lit "Web方法失败，尝试App方法: "; exn_str e1]);;
         try_except (perform (FetchAppStreamData douyin_stream url))
           (fun e2 =>
              if is_Exception e2
              then Some (Raise (PyException (both_failed_msg e1 e2)))
              else None))
       else None).

(** The file extension chosen from the stream URL. *)
Definition ext_of (stream_url : pystr) : pystr :=
  if endswith stream_url (lit ".m3u8") || contains (lit "m3u8") stream_url
  then lit "mp4" else lit "flv".

(** Lines 40-81: what the session does with the resolved [data]. *)
Definition capture (douyin_stream : client) (data : dict)
    (output_dir quality : pystr) (duration : option Z) : coro pyval :=
  let status := dict_get data (lit "status") (VInt 4) in
  if py_ne_int status 2 then
    print (tagged quality [lit "❌ 主播未开播 (status="; py_str status; lit ")"]);;
    mret VNone
  else
    print (tagged quality [lit "✅ 主播: ";
                           py_str (dict_get_none data (lit "anchor_name"))]);;
    print (tagged quality [lit "📺 标题: ";
                           py_str (dict_get_none data (lit "title"))]);;
    stream_data ← perform (FetchStreamUrl douyin_stream data quality);
    match py_or (flv_url stream_data) (m3u8_url stream_data) with
    | None | Some [] =>
        print (tagged quality [lit "❌ 未获取到流地址"]);;
        mret VNone
    | Some stream_url =>
        print (tagged quality [lit "🔗 流地址: "; slice_to 80 stream_url;
                               lit "..."]);;
        timestamp ← perform NowStrftime;
        match dict_get data (lit "anchor_name") (VStr (lit "unknown")) with
        | VStr name =>
            let anchor_name := replace_char slash 95%N name in
            let ext := ext_of stream_url in
            let output_file :=
              path_div (path_of output_dir)
                (fstr [anchor_name; lit "_"; quality; lit "_"; timestamp;
                       lit "."; ext]) in
            print (tagged quality [lit "💾 开始录制，保存到: ";
                                   path_name output_file]);;
            (match duration with
             | Some d =>
                 if d =? 0 then
                   print (tagged quality
                            [lit "⏱️  持续录制，按 Ctrl+C 停止..."])
                 else
                   print (tagged quality
                            [lit "⏱️  录制时长: "; str_int d; lit "秒 (";
                             str_int (d / 60); lit "分";
                             str_int (d mod 60); lit "秒)"])
             | None =>
                 print (tagged quality [lit "⏱️  持续录制，按 Ctrl+C 停止..."])
             end);;
            download_with_ffmpeg stream_url (path_str output_file)
              duration quality
        | v => Raise (AttributeError v (lit "replace"))
        end
    end.

(** The [except] clauses closing [download_live_stream]. *)
Definition session_handler (quality : pystr) (e : exn)
    : option (coro pyval) :=
  match e with
  | KeyboardInterrupt =>
      Some (print (fstr [[newline]; lit "["; quality; lit "] ⏹️ 用户停止录制"]);;
            mret VNone)
  | PyException msg =>
      Some (print (tagged quality [lit "❌ 发生错误: "; msg]);;
            print_exc e;;
            mret VNone)
  | OtherBaseException => None
  end.

Definition download_live_stream (url output_dir quality : pystr)
    (duration : option Z) (cookies : option pystr) : coro pyval :=
  perform (Mkdir output_dir);;
  douyin_stream ← perform (NewDouyinLiveStream cookies);
  try_except
    (print (tagged quality [lit "正在获取直播间信息: "; url]);;
     data ← fetch_data douyin_stream url quality;
     capture douyin_stream data output_dir quality duration)
    (session_handler quality).

End Douyin.
Export Douyin.

(** ** Running coroutines against the collaborators

    The collaborators are a state machine [answer]: a call met in state
    [w] is answered by a value or an exception and leaves a new state.  A
    run records every effect in a trace. *)

Module Run.

Inductive event : Type :=
| EvStdout (line : pystr)
| EvTraceback (e : exn)
| EvCall {X : Type} (c : call X) (a : result X).

Inductive outcome (R : Type) : Type :=
| Returned (r : R)
| Raised (e : exn).
Arguments Returned {R} r.
Arguments Raised {R} e.

(** Who performed an effect: [main] or the session of the i-th label. *)
Inductive task_id : Type :=
| MainTask
| SessionTask (i : nat).

Definition is_raise {R : Type} (p : coro R) : bool :=
  match p with
  | Raise _ => true
  | _ => false
  end.

Definition is_ret {R : Type} (p : coro R) : bool :=
  match p with
  | Ret _ => true
  | _ => false
  end.

(** The exception of the first task that raised, if any. *)
Fixpoint first_raised {R : Type} (pool : list (coro R)) : option exn :=
  match pool with
  | [] => None
  | Raise e :: _ => Some e
  | _ :: rest => first_raised rest
  end.

(** The return values of the tasks that returned, in list order. *)
Fixpoint returned_values {R : Type} (pool : list (coro R)) : list R :=
  match pool with
  | [] => []
  | Ret r :: rest => r :: returned_values rest
  | _ :: rest => returned_values rest
  end.

Definition tag (i : nat) (evs : list event) : list (task_id * event) :=
  map (pair (SessionTask i)) evs.

Section World.

Context {W : Type}.
Variable answer : forall X : Type, call X -> W -> result X * W.

(** A coroutine run alone, to its end. *)
Fixpoint exec {R : Type} (p : coro R) (w : W)
    : list event * outcome R * W :=
  match p with
  | Ret r => ([], Returned r, w)
  | Raise e => ([], Raised e, w)
  | Stdout line k =>
      let '(tr, o, w') := exec k w in (EvStdout line :: tr, o, w')
  | Traceback e k =>
      let '(tr, o, w') := exec k w in (EvTraceback e :: tr, o, w')
  | Call c k =>
      let '(a, w1) := answer _ c w in
      let '(tr, o, w') := exec (k a) w1 in
      (EvCall c a :: tr, o, w')
  end.

(** One effect of a coroutine; a finished coroutine stays as it is. *)
Definition step {R : Type} (p : coro R) (w : W)
    : coro R * W * list event :=
  match p with
  | Ret _ | Raise _ => (p, w, [])
  | Stdout line k => (k, w, [EvStdout line])
  | Traceback e k => (k, w, [EvTraceback e])
  | Call c k => let '(a, w') := answer _ c w in (k a, w', [EvCall c a])
  end.

(** [asyncio.gather] over the tasks, under a schedule: [sched] names the task that
    moves next, one effect at a time.  As soon as a task has raised,
    [gather] re-raises in its awaiter; [main] does not catch it, the event
    loop shuts down and the tasks still pending are cancelled where they
    stand. *)
Fixpoint run_schedule {R : Type} (sched : list nat) (pool : list (coro R))
    (w : W) : list (coro R) * W * list (task_id * event) :=
  match sched with
  | [] => (pool, w, [])
  | i :: sched' =>
      if existsb is_raise pool then (pool, w, [])
      else match pool !! i with
           | Some p =>
               let '(p', w1, evs) := step p w in
               let '(pool', w', tr) :=
                 run_schedule sched' (<[i:=p']> pool) w1 in
               (pool', w', tag i evs ++ tr)
           | None => run_schedule sched' pool w
           end
  end.

(** Once the schedule is used up, the tasks still pending run to their end
    one after the other, [i] being the index of the first of [todo]. *)
Fixpoint drain {R : Type} (i : nat) (todo : list (coro R)) (w : W)
    : list (coro R) * W * list (task_id * event) :=
  match todo with
  | [] => ([], w, [])
  | p :: rest =>
      let '(tr, o, w1) := exec p w in
      match o with
      | Raised e => (Raise e :: rest, w1, tag i tr)
      | Returned r =>
          let '(rest', w', tr') := drain (S i) rest w1 in
          (Ret r :: rest', w', tag i tr ++ tr')
      end
  end.

(** The tasks after the run, the final state and the trace. *)
Definition run_pool {R : Type} (tasks : list (coro R)) (sched : list nat)
    (w : W) : list (coro R) * W * list (task_id * event) :=
  let '(pool, w1, tr) := run_schedule sched tasks w in
  if existsb is_raise pool then (pool, w1, tr)
  else
    let '(pool', w', tr') := drain 0 pool w1 in
    (pool', w', tr ++ tr').

(** What awaiting [asyncio.gather] over the tasks evaluates to: the list of the
    tasks' return values, in the order of [tasks], or the exception of a
    task that raised. *)
Definition gather {R : Type} (tasks : list (coro R)) (sched : list nat)
    (w : W) : list (task_id * event) * outcome (list R) * W :=
  let '(pool, w', tr) := run_pool tasks sched w in
  match first_raised pool with
  | Some e => (tr, Raised e, w')
  | None => (tr, Returned (returned_values pool), w')
  end.

(** The body of [main], for any configuration. *)
Definition main_with (url output_dir : pystr) (duration : option Z)
    (cookies : option pystr) (quality_list : list pystr)
    (sched : list nat) (w : W)
    : list (task_id * event) * outcome pyval * W :=
  let banner :=
    fstr [[newline]; lit "🚀 开始并发录制 ";
          str_int (Z.of_nat (length quality_list)); lit " 个画质: ";
          join (lit ", ") quality_list; [newline]] in
  let tasks :=
    map (fun q => download_live_stream url output_dir q duration cookies)
        quality_list in
  let '(tr, o, w') := gather tasks sched w in
  match o with
  | Raised e => ((MainTask, EvStdout banner) :: tr, Raised e, w')
  | Returned _ =>
      ((MainTask, EvStdout banner) :: tr ++
       [(MainTask, EvStdout (fstr [[newline]; lit "✅ 所有画质录制完成！"]))],
       Returned VNone, w')
  end.

(** [main], with the configuration written in the source. *)
Definition main (sched : list nat) (w : W)
    : list (task_id * event) * outcome pyval * W :=
  main_with (lit "https://live.douyin.com/901113773259") (lit "downloads")
    (Some 600) None
    [lit "OD"; lit "UHD"; lit "HD"; lit "SD"; lit "LD"]
    sched w.

End World.

End Run.
Export Run.

(** ** Observations on traces *)

Module Trace.

(** The part of a run's trace performed by the session of the i-th label. *)
Definition session_events (i : nat) (tr : list (task_id * event))
    : list event :=
  omap (fun te => match fst te with
                  | SessionTask j => if Nat.eqb j i then Some (snd te) else None
                  | MainTask => None
                  end) tr.

(** Every effect of the trace was performed by one of the first [n]
    sessions. *)
Definition sessions_below (n : nat) (tr : list (task_id * event)) : Prop :=
  Forall (fun te => exists i, fst te = SessionTask i /\ (i < n)%nat) tr.

(** The lines printed, in order. *)
Definition stdout_lines (tr : list event) : list pystr :=
  omap (fun ev => match ev with
                  | EvStdout line => Some line
                  | _ => None
                  end) tr.

Definition is_web (ev : event) : bool :=
  match ev with
  | EvCall (FetchWebStreamData _ _) _ => true
  | _ => false
  end.

Definition is_app (ev : event) : bool :=
  match ev with
  | EvCall (FetchAppStreamData _ _) _ => true
  | _ => false
  end.

Definition is_stream_fetch (ev : event) : bool :=
  match ev with
  | EvCall (FetchStreamUrl _ _ _) _ => true
  | _ => false
  end.

Definition is_spawn (ev : event) : bool :=
  match ev with
  | EvCall (CreateSubprocessExec _) _ => true
  | _ => false
  end.

(** How many events of a trace satisfy [f]. *)
Definition count (f : event -> bool) (tr : list event) : nat :=
  length (List.filter f tr).

(** The command lines handed to [asyncio.create_subprocess_exec]. *)
Definition spawned (tr : list event) : list (list pystr) :=
  omap (fun ev => match ev with
                  | EvCall (CreateSubprocessExec cmd) _ => Some cmd
                  | _ => None
                  end) tr.

(** The response a resolution strategy returned, if the event is one. *)
Definition resolved_by (ev : event) : option dict :=
  match ev with
  | EvCall c a =>
      match c in call X return result X -> option dict with
      | FetchWebStreamData _ _ | FetchAppStreamData _ _ =>
          fun a => match a with Ok d => Some d | Err _ => None end
      | _ => fun _ => None
      end a
  | _ => None
  end.

(** The stream record [fetch_stream_url] returned, if the event is one. *)
Definition stream_record_of (ev : event) : option StreamData :=
  match ev with
  | EvCall c a =>
      match c in call X return result X -> option StreamData with
      | FetchStreamUrl _ _ _ =>
          fun a => match a with Ok sd => Some sd | Err _ => None end
      | _ => fun _ => None
      end a
  | _ => None
  end.

(** What a finished capture process left, if the event is its end. *)
Definition exit_of (ev : event) : option finished :=
  match ev with
  | EvCall c a =>
      match c in call X return result X -> option finished with
      | Communicate _ =>
          fun a => match a with Ok fin => Some fin | Err _ => None end
      | _ => fun _ => None
      end a
  | _ => None
  end.

(** The exception the web strategy, or the app strategy, raised. *)
Definition web_error (ev : event) : option exn :=
  match ev with
  | EvCall (FetchWebStreamData _ _) (Err e) => Some e
  | _ => None
  end.

Definition app_error (ev : event) : option exn :=
  match ev with
  | EvCall (FetchAppStreamData _ _) (Err e) => Some e
  | _ => None
  end.

(** The exception a call was answered with, if it raised. *)
Definition raised_by (ev : event) : option exn :=
  match ev with
  | EvCall _ (Err e) => Some e
  | _ => None
  end.

(** The failures of a session: both strategies raised an [Exception], the
    stream record holds no URL, or the capture process exited with a
    non-zero code. *)
Definition raised_exception (f : event -> option exn) (tr : list event)
    : bool :=
  existsb (fun ev => match f ev with
                     | Some (PyException _) => true
                     | _ => false
                     end) tr.

Definition resolution_failed (tr : list event) : bool :=
  raised_exception web_error tr && raised_exception app_error tr.

Definition url_missing (tr : list event) : bool :=
  existsb (fun ev => match stream_record_of ev with
                     | Some sd =>
                         negb (truthy_str (py_or (flv_url sd) (m3u8_url sd)))
                     | None => false
                     end) tr.

Definition exit_nonzero (tr : list event) : bool :=
  existsb (fun ev => match exit_of ev with
                     | Some fin => negb (returncode fin =? 0)
                     | None => false
                     end) tr.

Definition session_failed (tr : list event) : bool :=
  resolution_failed tr || url_missing tr || exit_nonzero tr.

(** The last line the session printed is a failure report under its own
    label. *)
Definition reported (quality : pystr) (tr : list event) : bool :=
  match last (stdout_lines tr) with
  | Some line => startswith (fstr [lit "["; quality; lit "] ❌"]) line
  | None => false
  end.

(** A call of the session's set-up, made before its [try] block. *)
Definition is_setup (ev : event) : bool :=
  match ev with
  | EvCall (Mkdir _) _ | EvCall (NewDouyinLiveStream _) _ => true
  | _ => false
  end.

(** An event the session's [except] clauses cannot absorb: a set-up call
    that raised, or a call that raised outside [Exception] and
    [KeyboardInterrupt]. *)
Definition escapes (ev : event) : bool :=
  match raised_by ev with
  | Some OtherBaseException => true
  | Some _ => is_setup ev
  | None => false
  end.

(** A trace all of whose failures are of the kind a session handles. *)
Definition contained (tr : list event) : bool := forallb (fun ev => negb (escapes ev)) tr.

(** [p] can perform the effects [evs], for some answers of the
    collaborators, and continue as [p']. *)
Fixpoint runs_to {R : Type} (p : coro R) (evs : list event) (p' : coro R)
    : Prop :=
  (evs = [] /\ p' = p) \/
  match p with
  | Ret _ | Raise _ => False
  | Stdout line k =>
      exists evs', evs = EvStdout line :: evs' /\ runs_to k evs' p'
  | Traceback e k =>
      exists evs', evs = EvTraceback e :: evs' /\ runs_to k evs' p'
  | Call c k =>
      exists a evs', evs = EvCall c a :: evs' /\ runs_to (k a) evs' p'
  end.

(** [Q] holds of the trace and outcome of every complete run of [p]. *)
Fixpoint all_runs {R : Type} (Q : list event -> outcome R -> Prop)
    (p : coro R) : Prop :=
  match p with
  | Ret r => Q [] (Returned r)
  | Raise e => Q [] (Raised e)
  | Stdout line k => all_runs (fun tr => Q (EvStdout line :: tr)) k
  | Traceback e k => all_runs (fun tr => Q (EvTraceback e :: tr)) k
  | Call c k => forall a, all_runs (fun tr => Q (EvCall c a :: tr)) (k a)
  end.

(** The coroutine a finished run leaves behind. *)
Definition ended {R : Type} (o : outcome R) : coro R :=
  match o with
  | Returned r => Ret r
  | Raised e => Raise e
  end.

End Trace.
Export Trace.

(** ** Collaborators for the examples

    Scripted collaborators: the state counts the processes spawned so far,
    and a spawned process is identified by its rank. *)

Module Script.

Record behaviour : Type := MkBehaviour {
  b_mkdir : result unit;
  b_web : result dict;
  b_app : result dict;
  b_stream : pystr -> result StreamData;
  b_spawn : result unit;
  b_exit : process -> finished;
}.

Definition scripted (b : behaviour) (X : Type) (c : call X) (w : N)
    : result X * N :=
  match c in call X return result X * N with
  | Mkdir _ => (b_mkdir b, w)
  | NewDouyinLiveStream _ => (Ok 1%N, w)
  | FetchWebStreamData _ _ => (b_web b, w)
  | FetchAppStreamData _ _ => (b_app b, w)
  | FetchStreamUrl _ _ quality => (b_stream b quality, w)
  | NowStrftime => (Ok (lit "20260101_120000"), w)
  | CreateSubprocessExec _ =>
      (match b_spawn b with Ok _ => Ok w | Err e => Err e end, N.succ w)
  | Communicate p => (Ok (b_exit b p), w)
  end.

Definition room (status : pyval) : dict :=
  <[lit "status" := status]>
    (<[lit "anchor_name" := VStr (lit "a/b")]>
       (<[lit "title" := VStr (lit "T")]> ∅)).

(** A room with no [status] key. *)
Definition room_without_status : dict :=
  <[lit "anchor_name" := VStr (lit "a/b")]> (<[lit "title" := VStr (lit "T")]> ∅).

Definition both_urls : StreamData :=
  MkStreamData (Some (lit "http://h/s.flv")) (Some (lit "http://h/s.m3u8")).

(** A live room; every capture process exits with code 0. *)
Definition live_ok : behaviour :=
  MkBehaviour (Ok tt) (Ok (room (VInt 2))) (Ok (room (VInt 2)))
    (fun _ => Ok both_urls) (Ok tt) (fun _ => MkFinished [] [] 0).

(** The web strategy fails, the app strategy answers. *)
Definition web_down : behaviour :=
  MkBehaviour (Ok tt) (Err (PyException (lit "web timeout")))
    (Ok (room (VInt 2)))
    (fun _ => Ok both_urls) (Ok tt) (fun _ => MkFinished [] [] 0).

(** Both strategies fail. *)
Definition both_down : behaviour :=
  MkBehaviour (Ok tt) (Err (PyException (lit "web timeout")))
    (Err (PyException (lit "app refused")))
    (fun _ => Ok both_urls) (Ok tt) (fun _ => MkFinished [] [] 0).

(** The room is offline. *)
Definition offline : behaviour :=
  MkBehaviour (Ok tt) (Ok (room (VInt 4))) (Ok (room (VInt 4)))
    (fun _ => Ok both_urls) (Ok tt) (fun _ => MkFinished [] [] 0).

(** The response has no [status] key. *)
Definition no_status : behaviour :=
  MkBehaviour (Ok tt) (Ok room_without_status) (Ok room_without_status)
    (fun _ => Ok both_urls) (Ok tt) (fun _ => MkFinished [] [] 0).

(** A live room with no URL for the label [SD]; the process of rank 1
    exits with code 1 and the diagnostic [connection reset]. *)
Definition mixed : behaviour :=
  MkBehaviour (Ok tt) (Ok (room (VInt 2))) (Ok (room (VInt 2)))
    (fun q => if bool_decide (q = lit "SD")
              then Ok (MkStreamData None None) else Ok both_urls)
    (Ok tt)
    (fun p => if (p =? 1)%N
              then MkFinished [] (list_byte_of_string "connection reset") 1
              else MkFinished [] [] 0).

(** The output directory cannot be created. *)
Definition no_dir : behaviour :=
  MkBehaviour (Err (PyException (lit "File exists: 'downloads'")))
    (Ok (room (VInt 2))) (Ok (room (VInt 2)))
    (fun _ => Ok both_urls) (Ok tt) (fun _ => MkFinished [] [] 0).

(** A diagnostic of 201 characters: 200 times [a], then [b]. *)
Definition long_stderr : bytes := repeat "a"%byte 200 ++ ["b"%byte].

(** Every capture process exits with code 1 and [long_stderr]. *)
Definition noisy : behaviour :=
  MkBehaviour (Ok tt) (Ok (room (VInt 2))) (Ok (room (VInt 2)))
    (fun _ => Ok both_urls) (Ok tt) (fun _ => MkFinished [] long_stderr 1).

(** A schedule that lets [n] tasks move in turn, [k] times around. *)
Definition round_robin (n k : nat) : list nat := concat (repeat (seq 0 n) k).

(** The room of the examples. *)
Definition room_url : pystr := lit "https://live.douyin.com/1".

End Script.
Export Script.

(** ** Reading a capture command line *)

Module Cmd.

(** The two arguments that follow the five of the input and the copy mode. *)
Definition audio_filter_args (cmd : list pystr) : list pystr :=
  firstn 2 (skipn 5 cmd).

(** What stands between the seven leading arguments and the four trailing
    ones ([-f], the format, [-y], the output file). *)
Definition duration_args (cmd : list pystr) : list pystr :=
  firstn (length cmd - 11) (skipn 7 cmd).

(** The input URL, after [-i]. *)
Definition input_url (cmd : list pystr) : option pystr := cmd !! 2%nat.

(** The spec's words: the stream is a segmented playlist, the case in
    which the audio bitstream filter is required. *)
Definition segmented_source (stream_url : pystr) : bool :=
  contains (lit "m3u8") stream_url.

(** The spec's words: an [Optional[str]] is present when it holds a URL,
    that is a string that is not empty. *)
Definition present (u : option pystr) : Prop :=
  exists s, u = Some s /\ s <> [].

End Cmd.
Export Cmd.

Arguments lit : simpl never.
Arguments tagged : simpl never.
Arguments fstr : simpl never.
Arguments ffmpeg_cmd : simpl never.
Arguments error_msg : simpl never.
Arguments both_failed_msg : simpl never.
Arguments dict_get : simpl never.
Arguments py_ne_int : simpl never.
Arguments py_or : simpl never.
Arguments str_int : simpl never.
Arguments path_of : simpl never.
Arguments path_div : simpl never.
Arguments path_str : simpl never.
Arguments path_name : simpl never.
Arguments replace_char : simpl never.
Arguments ext_of : simpl never.
Arguments slice_to : simpl never.
Arguments decode_utf8_ignore : simpl never.
Arguments py_str : simpl never.
Arguments str_opt_int : simpl never.
Arguments AttributeError : simpl never.
Arguments exn_str : simpl never.

(** ** Further observations on sessions *)

Module Observe.

Definition is_communicate (ev : event) : bool :=
  match ev with
  | EvCall (Communicate _) _ => true
  | _ => false
  end.

(** The exceptions whose traceback was printed. *)
Definition tracebacks (tr : list event) : list exn :=
  omap (fun ev => match ev with
                  | EvTraceback e => Some e
                  | _ => None
                  end) tr.

(** The timestamp the clock returned, if the event is its reading. *)
Definition timestamp_of (ev : event) : option pystr :=
  match ev with
  | EvCall c a =>
      match c in call X return result X -> option pystr with
      | NowStrftime =>
          fun a => match a with Ok ts => Some ts | Err _ => None end
      | _ => fun _ => None
      end a
  | _ => None
  end.

(** The name of the output file, as line 72 writes it. *)
Definition output_name (anchor_name quality timestamp ext : pystr) : pystr :=
  fstr [anchor_name; lit "_"; quality; lit "_"; timestamp; lit "."; ext].

(** The line printed when the user stops a session. *)
Definition stop_line (quality : pystr) : pystr :=
  fstr [[newline]; lit "["; quality; lit "] ⏹️ 用户停止录制"].

(** The last line of [main]. *)
Definition done_line : pystr := fstr [[newline]; lit "✅ 所有画质录制完成！"].

(** The container format of a command line, after [-f]. *)
Definition format_arg (cmd : list pystr) : option pystr :=
  cmd !! (length cmd - 3)%nat.

(** The output file of a command line, its last argument. *)
Definition output_arg (cmd : list pystr) : option pystr := last cmd.

Definition no_slash (s : pystr) : bool :=
  forallb (fun c => negb (c =? slash)%N) s.

End Observe.
Export Observe.

Arguments output_name : simpl never.
Arguments stop_line : simpl never.
Arguments done_line : simpl never.

(** ** More collaborators for the examples *)

Module MoreScripts.

(** The user interrupts the web strategy. *)
Definition interrupted : behaviour :=
  MkBehaviour (Ok tt) (Err KeyboardInterrupt) (Ok (room (VInt 2)))
    (fun _ => Ok both_urls) (Ok tt) (fun _ => MkFinished [] [] 0).

(** A live room whose anchor name is [None]. *)
Definition room_anchor_none : dict :=
  <[lit "status" := VInt 2]> (<[lit "anchor_name" := VNone]> ∅).

Definition anchor_none : behaviour :=
  MkBehaviour (Ok tt) (Ok room_anchor_none) (Ok room_anchor_none)
    (fun _ => Ok both_urls) (Ok tt) (fun _ => MkFinished [] [] 0).

(** A live room whose only URL is a segmented playlist. *)
Definition playlist_only : behaviour :=
  MkBehaviour (Ok tt) (Ok (room (VInt 2))) (Ok (room (VInt 2)))
    (fun _ => Ok (MkStreamData None (Some (lit "http://h/live/index.m3u8"))))
    (Ok tt) (fun _ => MkFinished [] [] 0).

End MoreScripts.
Export MoreScripts.

(** ** Further observations on a run of [main] *)

Module ObserveMain.

(** The first line of [main], for the labels it was given. *)
Definition banner_line (quality_list : list pystr) : pystr :=
  fstr [[newline]; lit "🚀 开始并发录制 ";
        str_int (Z.of_nat (length quality_list)); lit " 个画质: ";
        PyStr.join (lit ", ") quality_list; [newline]].

(** The effects [main] performed itself. *)
Definition main_events (tr : list (task_id * event)) : list event :=
  omap (fun te => match fst te with
                  | MainTask => Some (snd te)
                  | SessionTask _ => None
                  end) tr.

(** The event is a call answered as [ans] answers it. *)
Definition answered_by (ans : forall X : Type, call X -> result X)
    (ev : event) : Prop :=
  match ev with
  | EvCall c a => a = ans _ c
  | _ => True
  end.

(** Collaborators without memory: the state is the unit and every call
    has one answer. *)
Definition fixed_answers (b : behaviour) (X : Type) (c : call X)
    : result X :=
  match c in call X return result X with
  | Mkdir _ => b_mkdir b
  | NewDouyinLiveStream _ => Ok 1%N
  | FetchWebStreamData _ _ => b_web b
  | FetchAppStreamData _ _ => b_app b
  | FetchStreamUrl _ _ quality => b_stream b quality
  | NowStrftime => Ok (lit "20260101_120000")
  | CreateSubprocessExec _ =>
      match b_spawn b with Ok _ => Ok 0%N | Err e => Err e end
  | Communicate p => Ok (b_exit b p)
  end.

Definition fixed (b : behaviour) (X : Type) (c : call X) (w : unit)
    : result X * unit :=
  (fixed_answers b X c, w).

End ObserveMain.
Export ObserveMain.

Arguments banner_line : simpl never.

(** ** [download_with_requests]

    The function performs no [await]: it is run here against the script of
    what the HTTP exchange and the file system answer. *)

Module Requests.

(** What the iteration over [response.iter_content(chunk_size=8192)]
    gives next: a chunk, written to the file if it is not empty, or an
    exception raised by the iteration or by the write. *)
Inductive item : Type :=
| Chunk (data : bytes)
| Broken (e : exn).

Record exchange : Type := MkExchange {
  x_import : result unit;   (* import requests *)
  x_get : result unit;      (* requests.get(stream_url, stream=True, timeout=10) *)
  x_status : result unit;   (* response.raise_for_status() *)
  x_open : result unit;     (* open(output_file, 'wb') *)
  x_items : list item;
}.

(** What a call leaves: the lines printed, the content of the output file
    if it was opened (opening truncates it), and the outcome. *)
Record download : Type := MkDownload {
  d_lines : list pystr;
  d_file : option bytes;
  d_outcome : outcome pyval;
}.

(** [num / den] rounded to the nearest integer, halves to the even one. *)
Definition round_half_even (num den : Z) : Z :=
  let q := num / den in
  let r := num mod den in
  if 2 * r <? den then q
  else if den <? 2 * r then q + 1
  else if Z.even q then q else q + 1.

(** The integer [n] rounded to the 53 significant bits of a float. *)
Definition round53 (n : Z) : Z :=
  if n <? 2 ^ 53 then n
  else let k := Z.log2 n - 52 in round_half_even n (2 ^ k) * 2 ^ k.

(** [f"{total_size / (1024*1024):.2f}"]: the division by a power of two
    only rounds the integer to a float, and the two decimals are those of
    the exact value of that float. *)
Definition mb_2f (total_size : Z) : pystr :=
  let h := round_half_even (round53 total_size * 100) (1024 * 1024) in
  let cents := h mod 100 in
  str_int (h / 100) ++ lit "." ++
  (if cents <? 10 then lit "0" else []) ++ str_int cents.

Definition progress_line (total_size : Z) : pystr :=
  fstr [lit "📊 已下载: "; mb_2f total_size; lit " MB"].

(** The loop of lines 154-160, from [total_size] on: the progress lines
    printed, the chunks written, the final [total_size] and the exception
    that broke the loop, if any. *)
Fixpoint receive (items : list item) (total_size : Z)
    : list pystr * list bytes * Z * option exn :=
  match items with
  | [] => ([], [], total_size, None)
  | Broken e :: _ => ([], [], total_size, Some e)
  | Chunk [] :: rest => receive rest total_size
  | Chunk chunk :: rest =>
      let total_size := total_size + Z.of_nat (length chunk) in
      let '(lines, written, final, err) := receive rest total_size in
      ((if total_size mod (10 * 1024 * 1024) <? 8192
        then progress_line total_size :: lines else lines),
       chunk :: written, final, err)
  end.

(** The [except Exception] clause of line 164. *)
Definition on_error (lines : list pystr) (file : option bytes) (e : exn)
    : download :=
  match e with
  | PyException msg =>
      MkDownload (lines ++ [fstr [lit "❌ 下载错误: "; msg]]) file
        (Returned VNone)
  | _ => MkDownload lines file (Raised e)
  end.

Definition download_with_requests (stream_url output_file : pystr)
    (x : exchange) : download :=
  match x_import x with
  | Err e => MkDownload [] None (Raised e)
  | Ok _ =>
      let lines := [fstr [lit "📥 开始下载到: "; output_file]] in
      match x_get x with
      | Err e => on_error lines None e
      | Ok _ =>
          match x_status x with
          | Err e => on_error lines None e
          | Ok _ =>
              match x_open x with
              | Err e => on_error lines None e
              | Ok _ =>
                  let '(progress, written, total_size, err) :=
                    receive (x_items x) 0 in
                  let lines := lines ++ progress in
                  let file := Some (concat written) in
                  match err with
                  | Some e => on_error lines file e
                  | None =>
                      MkDownload
                        (lines ++
                         [fstr [lit "✅ 下载完成: "; output_file; lit " (";
                                mb_2f total_size; lit " MB)"]])
                        file (Returned VNone)
                  end
              end
          end
      end
  end.

(** The chunks the exchange delivers before it breaks, if it does. *)
Fixpoint delivered (items : list item) : list bytes :=
  match items with
  | [] => []
  | Broken _ :: _ => []
  | Chunk data :: rest => data :: delivered rest
  end.

(** The exception that breaks the iteration, if one does. *)
Fixpoint breaks (items : list item) : option exn :=
  match items with
  | [] => None
  | Broken e :: _ => Some e
  | Chunk _ :: rest => breaks rest
  end.

(** The first exception of an exchange, after the import. *)
Definition failure (x : exchange) : option exn :=
  match x_get x, x_status x, x_open x with
  | Err e, _, _ => Some e
  | Ok _, Err e, _ => Some e
  | Ok _, Ok _, Err e => Some e
  | Ok _, Ok _, Ok _ => breaks (x_items x)
  end.

Definition is_progress (line : pystr) : bool := startswith (lit "📊") line.

(** An exchange in which every step succeeds. *)
Definition delivers (items : list item) : exchange :=
  MkExchange (Ok tt) (Ok tt) (Ok tt) (Ok tt) items.

End Requests.
Export Requests.

Arguments mb_2f : simpl never.
Arguments progress_line : simpl never.

(** * Properties *)

(** ** Runs of a single coroutine *)

Lemma runs_here {R : Type} (p : coro R) : runs_to p [] p.
Proof. destruct p; simpl; left; split; reflexivity. Qed.

Lemma runs_stdout {R : Type} line (k : coro R) evs p' :
  runs_to k evs p' -> runs_to (Stdout line k) (EvStdout line :: evs) p'.
Proof. intros H. simpl. right. exists evs. split; [reflexivity | exact H]. Qed.

Lemma runs_traceback {R : Type} e (k : coro R) evs p' :
  runs_to k evs p' -> runs_to (Traceback e k) (EvTraceback e :: evs) p'.
Proof. intros H. simpl. right. exists evs. split; [reflexivity | exact H]. Qed.

Lemma runs_call {R X : Type} (c : call X) (k : result X -> coro R) a evs p' :
  runs_to (k a) evs p' -> runs_to (Call c k) (EvCall c a :: evs) p'.
Proof. intros H. simpl. right. exists a, evs. split; [reflexivity | exact H]. Qed.

Lemma runs_to_app {R : Type} (p : coro R) :
  forall q r evs1 evs2,
    runs_to p evs1 q -> runs_to q evs2 r -> runs_to p (evs1 ++ evs2) r.
Proof.
  induction p as [r0 | e | line k IH | e k IH | X c k IH];
    intros q r evs1 evs2 H1 H2; simpl in H1.
  - destruct H1 as [[-> ->] | []]. exact H2.
  - destruct H1 as [[-> ->] | []]. exact H2.
  - destruct H1 as [[-> ->] | (evs' & -> & H1)]; [exact H2 |].
    apply runs_stdout. eapply IH; eassumption.
  - destruct H1 as [[-> ->] | (evs' & -> & H1)]; [exact H2 |].
    apply runs_traceback. eapply IH; eassumption.
  - destruct H1 as [[-> ->] | (a & evs' & -> & H1)]; [exact H2 |].
    apply runs_call. eapply IH; eassumption.
Qed.

(** What holds of every complete run holds of each of them. *)
Lemma all_runs_sound {R : Type} (p : coro R) :
  forall Q tr o, all_runs Q p -> runs_to p tr (ended o) -> Q tr o.
Proof.
  induction p as [r0 | e | line k IH | e k IH | X c k IH];
    simpl; intros Q tr o HQ Hr.
  - destruct Hr as [[-> Ho] | []]. destruct o; inversion Ho; subst; exact HQ.
  - destruct Hr as [[-> Ho] | []]. destruct o; inversion Ho; subst; exact HQ.
  - destruct Hr as [[_ Ho] | (evs' & -> & Hr)]; [destruct o; discriminate |].
    apply (IH (fun tr => Q (EvStdout line :: tr))); assumption.
  - destruct Hr as [[_ Ho] | (evs' & -> & Hr)]; [destruct o; discriminate |].
    apply (IH (fun tr => Q (EvTraceback e :: tr))); assumption.
  - destruct Hr as [[_ Ho] | (a & evs' & -> & Hr)]; [destruct o; discriminate |].
    apply (IH a (fun tr => Q (EvCall c a :: tr))); [apply HQ | assumption].
Qed.

(** Every complete run of [bind m f] is one of [m] followed, when [m]
    returned, by one of [f]. *)
Lemma all_runs_bind {A B : Type} (m : coro A) (f : A -> coro B) :
  forall Q : list event -> outcome B -> Prop,
    all_runs (fun tr o =>
                match o with
                | Returned a => all_runs (fun tr' => Q (tr ++ tr')) (f a)
                | Raised e => Q tr (Raised e)
                end) m ->
    all_runs Q (bind m f).
Proof.
  induction m as [r0 | e | line k IH | e k IH | X c k IH];
    simpl; intros Q H; auto.
Qed.

(** Every complete run of [try_except body handler] is one of [body]
    followed, when [body] raised an exception the handler takes, by one of
    the handler. *)
Lemma all_runs_try {R : Type} (body : coro R) handler :
  forall Q : list event -> outcome R -> Prop,
    all_runs (fun tr o =>
                match o with
                | Returned r => Q tr (Returned r)
                | Raised e =>
                    match handler e with
                    | Some h => all_runs (fun tr' => Q (tr ++ tr')) h
                    | None => Q tr (Raised e)
                    end
                end) body ->
    all_runs Q (try_except body handler).
Proof.
  induction body as [r0 | e | line k IH | e k IH | X c k IH];
    simpl; intros Q H; auto.
  destruct (handler e); exact H.
Qed.

Section Runs.

Context {W : Type}.
Variable answer : forall X : Type, call X -> W -> result X * W.

(** A run against the collaborators follows a path of the coroutine. *)
Lemma exec_runs_to {R : Type} (p : coro R) :
  forall w tr o w',
    exec answer p w = (tr, o, w') -> runs_to p tr (ended o).
Proof.
  induction p as [r | e | line k IH | e k IH | X c k IH];
    intros w tr o w' E; simpl in E.
  - inversion E; subst; apply (runs_here (Ret r)).
  - inversion E; subst; apply (runs_here (Raise e)).
  - destruct (exec answer k w) as [[tr1 o1] w1] eqn:E1.
    inversion E; subst. apply runs_stdout. eapply IH; eassumption.
  - destruct (exec answer k w) as [[tr1 o1] w1] eqn:E1.
    inversion E; subst. apply runs_traceback. eapply IH; eassumption.
  - destruct (answer X c w) as [a w1] eqn:Ea.
    destruct (exec answer (k a) w1) as [[tr1 o1] w2] eqn:E1.
    inversion E; subst. apply runs_call. eapply IH; eassumption.
Qed.

Lemma step_runs_to {R : Type} (p : coro R) w p' w' evs :
  step answer p w = (p', w', evs) -> runs_to p evs p'.
Proof.
  destruct p as [r | e | line k | e k | X c k]; intros E; simpl in E.
  - inversion E; subst; apply (runs_here (Ret r)).
  - inversion E; subst; apply (runs_here (Raise e)).
  - inversion E; subst. apply runs_stdout, runs_here.
  - inversion E; subst. apply runs_traceback, runs_here.
  - destruct (answer X c w) as [a w1]. inversion E; subst.
    apply runs_call, runs_here.
Qed.

(** Every property of all complete runs holds of the run against any
    collaborators. *)
Lemma all_runs_exec {R : Type} (p : coro R) Q w :
  all_runs Q p ->
  Q (exec answer p w).1.1 (exec answer p w).1.2.
Proof.
  intros H. destruct (exec answer p w) as [[tr o] w'] eqn:E. simpl.
  eapply all_runs_sound; [exact H |]. eapply exec_runs_to; exact E.
Qed.

End Runs.

(** ** The capture command line *)

Lemma ffmpeg_cmd_shape stream_url output_file duration :
  ffmpeg_cmd stream_url output_file duration =
  [lit "ffmpeg"; lit "-i"; stream_url; lit "-c"; lit "copy";
   lit "-bsf:a"; lit "aac_adtstoasc"] ++
  (if truthy_int duration then [lit "-t"; str_opt_int duration] else []) ++
  [lit "-f";
   if endswith output_file (lit ".mp4") then lit "mp4" else lit "flv";
   lit "-y"; output_file].
Proof.
  unfold ffmpeg_cmd. destruct (truthy_int duration); reflexivity.
Qed.

(** C7, as amended: the audio bitstream filter [-bsf:a aac_adtstoasc] is
    part of every capture command line, right after the input and the
    copy mode, whatever the stream URL, the output file and the duration. *)
Theorem audio_filter_always stream_url output_file duration :
  audio_filter_args (ffmpeg_cmd stream_url output_file duration) =
    [lit "-bsf:a"; lit "aac_adtstoasc"] /\
  exists rest,
    ffmpeg_cmd stream_url output_file duration =
    [lit "ffmpeg"; lit "-i"; stream_url; lit "-c"; lit "copy";
     lit "-bsf:a"; lit "aac_adtstoasc"] ++ rest.
Proof.
  rewrite ffmpeg_cmd_shape. split; [reflexivity | eexists; reflexivity].
Qed.

(** C7, as stated, fails: the session of a live room whose stream is a
    direct FLV stream, not a segmented playlist, launches a capture process
    whose command line carries the audio bitstream filter. *)
Lemma audio_filter_on_flv_stream :
  let tr := (exec (scripted live_ok)
               (download_live_stream (lit "https://live.douyin.com/1")
                  (lit "downloads") (lit "HD") None None) 0%N).1.1 in
  let cmd := ffmpeg_cmd (lit "http://h/s.flv")
               (lit "downloads/a_b_HD_20260101_120000.flv") None in
  spawned tr = [cmd] /\
  input_url cmd = Some (lit "http://h/s.flv") /\
  segmented_source (lit "http://h/s.flv") = false /\
  audio_filter_args cmd = [lit "-bsf:a"; lit "aac_adtstoasc"].
Proof. vm_compute. repeat split. Qed.

(** C9, as amended: the duration flag [-t N], with [N] the decimal form of
    the duration, is passed exactly when the duration is neither omitted
    nor zero (so also for a negative one); with an omitted or zero duration
    no flag is passed.  Building the command line never raises: a run of
    [download_with_ffmpeg] returns [None] or raises what a collaborator
    raised. *)
Theorem duration_flag_iff_nonzero stream_url output_file quality :
  (forall d, d <> 0 ->
     ffmpeg_cmd stream_url output_file (Some d) =
       [lit "ffmpeg"; lit "-i"; stream_url; lit "-c"; lit "copy";
        lit "-bsf:a"; lit "aac_adtstoasc";
        lit "-t"; str_int d;
        lit "-f";
        if endswith output_file (lit ".mp4") then lit "mp4" else lit "flv";
        lit "-y"; output_file] /\
     duration_args (ffmpeg_cmd stream_url output_file (Some d)) =
       [lit "-t"; str_int d]) /\
  (forall duration, duration = None \/ duration = Some 0 ->
     ffmpeg_cmd stream_url output_file duration =
       [lit "ffmpeg"; lit "-i"; stream_url; lit "-c"; lit "copy";
        lit "-bsf:a"; lit "aac_adtstoasc";
        lit "-f";
        if endswith output_file (lit ".mp4") then lit "mp4" else lit "flv";
        lit "-y"; output_file] /\
     duration_args (ffmpeg_cmd stream_url output_file duration) = []) /\
  forall duration,
    all_runs (fun tr o =>
                match o with
                | Returned r => r = VNone
                | Raised e => In e (omap raised_by tr)
                end)
      (download_with_ffmpeg stream_url output_file duration quality).
Proof.
  split; [| split].
  - intros d Hd. rewrite ffmpeg_cmd_shape. simpl.
    destruct (d =? 0) eqn:E; [apply Z.eqb_eq in E; contradiction |].
    split; reflexivity.
  - intros duration [-> | ->]; rewrite ffmpeg_cmd_shape; split; reflexivity.
  - intros duration. unfold download_with_ffmpeg.
    cbn [all_runs bind mbind mret coro_bind coro_ret perform print].
    intros [proc | e]; cbn [all_runs bind]; [| simpl; auto].
    intros [fin | e]; cbn [all_runs bind]; [| simpl; auto].
    destruct (returncode fin =? 0); reflexivity.
Qed.

(** Ten minutes, the duration [main] asks for, and no duration. *)
Lemma duration_flag_ten_minutes :
  duration_args
    (ffmpeg_cmd (lit "http://h/s.flv") (lit "downloads/a.flv") (Some 600)) =
    [lit "-t"; lit "600"] /\
  duration_args
    (ffmpeg_cmd (lit "http://h/s.flv") (lit "downloads/a.flv") None) = [].
Proof.
  pose proof (duration_flag_iff_nonzero (lit "http://h/s.flv")
                (lit "downloads/a.flv") (lit "HD")) as (Hpos & Hnone & _).
  split.
  - apply (Hpos 600). lia.
  - apply (Hnone None). left. reflexivity.
Defined.

(** C9, as stated, fails: a negative duration is not a positive one, and
    the flag is passed all the same. *)
Lemma duration_flag_for_negative :
  ffmpeg_cmd (lit "http://h/s.flv") (lit "downloads/a.flv") (Some (-1)) =
    [lit "ffmpeg"; lit "-i"; lit "http://h/s.flv"; lit "-c"; lit "copy";
     lit "-bsf:a"; lit "aac_adtstoasc"; lit "-t"; lit "-1";
     lit "-f"; lit "flv"; lit "-y"; lit "downloads/a.flv"] /\
  duration_args
    (ffmpeg_cmd (lit "http://h/s.flv") (lit "downloads/a.flv") (Some (-1))) =
    [lit "-t"; lit "-1"] /\
  ~ (0 < -1).
Proof.
  split; [vm_compute; reflexivity |]. split; [vm_compute; reflexivity | lia].
Qed.

(** ** Resolution with fallback *)

Ltac leaf_hyps :=
  unfold count; simpl;
  repeat match goal with
         | |- _ /\ _ => split
         | |- _ <-> _ => split
         | |- forall _, _ => intro
         end;
  unfold count in *; simpl in *;
  repeat match goal with
         | H : _ \/ _ |- _ => destruct H
         | H : False |- _ => destruct H
         | H : exists _, _ |- _ => destruct H
         | H : _ /\ _ |- _ => destruct H
         | H : _ :: _ = _ :: _ |- _ => inversion H; clear H; subst
         | H : [] = _ :: _ |- _ => discriminate H
         | H : _ :: _ = [] |- _ => discriminate H
         | H : Some _ = Some _ |- _ => inversion H; clear H; subst
         | H : Returned _ = Returned _ |- _ => inversion H; clear H; subst
         | H : Raised _ = Raised _ |- _ => inversion H; clear H; subst
         | H : Raised _ = Returned _ |- _ => discriminate H
         | H : Returned _ = Raised _ |- _ => discriminate H
         | H : true = false |- _ => discriminate H
         | H : false = true |- _ => discriminate H
         | H : S _ = O |- _ => discriminate H
         | H : O = S _ |- _ => discriminate H
         end;
  subst; try congruence.

Ltac leaf_close :=
  try lia; try assumption; try reflexivity;
  try (do 2 eexists; repeat split; simpl; solve [reflexivity | lia]);
  try (eexists; reflexivity).

Ltac leaf := leaf_hyps; leaf_close.

Lemma fetch_data_runs douyin_stream url quality :
  all_runs (fun tr o =>
    (exists a rest,
        tr = EvCall (FetchWebStreamData douyin_stream url) a :: rest /\
        count is_web rest = 0%nat /\ (count is_app rest <= 1)%nat) /\
    (count is_app tr = 1%nat <->
       exists m1, omap web_error tr = [PyException m1]) /\
    (forall d, In d (omap resolved_by tr) ->
       o = Returned d /\ omap resolved_by tr = [d]) /\
    (forall d, o = Returned d -> omap resolved_by tr = [d]) /\
    (forall m1 m2,
       omap web_error tr = [PyException m1] ->
       omap app_error tr = [PyException m2] ->
       o = Raised (PyException
                     (fstr [lit "Web和App方法都失败: Web="; slice_to 50 m1;
                            lit ", App="; slice_to 50 m2]))))
    (fetch_data douyin_stream url quality).
Proof.
  unfold fetch_data.
  cbn [all_runs bind try_except mbind mret coro_bind coro_ret perform print
       is_Exception].
  intros [d | [m1 | |]];
    cbn [all_runs bind try_except mbind mret coro_bind coro_ret perform print
         is_Exception].
  - leaf.
  - intros [d | [m2 | |]];
      cbn [all_runs bind try_except mbind mret coro_bind coro_ret perform
           print is_Exception]; leaf.
  - leaf.
  - leaf.
Qed.

(** C2: the web strategy is attempted first and once; the app strategy is
    attempted exactly when the web strategy raised an [Exception]; the
    response of the strategy that succeeded is what the resolution returns,
    alone; when both raised, one [Exception] is raised whose message holds
    the first 50 characters, at most, of each cause. *)
Theorem resolution_fallback {W : Type}
    (answer : forall X : Type, call X -> W -> result X * W) (w : W)
    douyin_stream url quality :
  let r := exec answer (fetch_data douyin_stream url quality) w in
  (exists a rest,
      r.1.1 = EvCall (FetchWebStreamData douyin_stream url) a :: rest /\
      count is_web rest = 0%nat /\ (count is_app rest <= 1)%nat) /\
  (count is_app r.1.1 = 1%nat <->
     exists m1, omap web_error r.1.1 = [PyException m1]) /\
  (forall d, In d (omap resolved_by r.1.1) ->
     r.1.2 = Returned d /\ omap resolved_by r.1.1 = [d]) /\
  (forall d, r.1.2 = Returned d -> omap resolved_by r.1.1 = [d]) /\
  (forall m1 m2,
     omap web_error r.1.1 = [PyException m1] ->
     omap app_error r.1.1 = [PyException m2] ->
     r.1.2 = Raised (PyException
                       (fstr [lit "Web和App方法都失败: Web="; slice_to 50 m1;
                              lit ", App="; slice_to 50 m2])) /\
     (length (slice_to 50 m1) <= 50)%nat /\
     (length (slice_to 50 m2) <= 50)%nat).
Proof.
  intros r.
  pose proof (all_runs_exec answer _ _ w
                (fetch_data_runs douyin_stream url quality)) as H.
  cbv beta in H. fold r in H.
  destruct H as (H1 & H2 & H3 & H4 & H5).
  repeat split; try assumption; try apply H2.
  - apply H3; assumption.
  - apply H3; assumption.
  - apply H5; assumption.
  - unfold slice_to. apply firstn_le_length.
  - unfold slice_to. apply firstn_le_length.
Qed.

(** Both strategies down: the causes are reported, the first 50
    characters of each. *)
Lemma resolution_fallback_both_down :
  let r := exec (scripted both_down)
             (fetch_data 1%N (lit "https://live.douyin.com/1") (lit "HD"))
             0%N in
  r.1.2 = Raised (PyException
                    (lit "Web和App方法都失败: Web=web timeout, App=app refused")) /\
  count is_app r.1.1 = 1%nat.
Proof.
  pose proof (resolution_fallback (scripted both_down) 0%N 1%N
                (lit "https://live.douyin.com/1") (lit "HD")) as H.
  cbv zeta in H. destruct H as (_ & H2 & _ & _ & H5).
  split.
  - apply (H5 (lit "web timeout") (lit "app refused")); reflexivity.
  - apply H2. exists (lit "web timeout"). reflexivity.
Defined.

(** ** The diagnostic of a failed capture *)

Lemma download_with_ffmpeg_runs stream_url output_file duration quality :
  all_runs (fun tr o =>
    forall fin, In fin (omap exit_of tr) -> returncode fin <> 0 ->
      o = Returned VNone /\
      last (stdout_lines tr) =
        Some (tagged quality
                [lit "❌ FFmpeg 错误: ";
                 slice_to 200 (decode_utf8_ignore (stderr fin))]))
    (download_with_ffmpeg stream_url output_file duration quality).
Proof.
  unfold download_with_ffmpeg.
  cbn [all_runs bind mbind mret coro_bind coro_ret perform print].
  intros [proc | e]; cbn [all_runs bind]; [| leaf].
  intros [fin | e]; cbn [all_runs bind]; [| leaf].
  destruct (returncode fin =? 0) eqn:E; cbn [all_runs bind].
  - apply Z.eqb_eq in E. leaf.
  - leaf.
Qed.

(** C8, as amended: when the capture process exits with a non-zero code,
    the error detail logged for it is the first 200 characters of its
    decoded diagnostic stream (all of it when it is shorter), and the
    capture returns normally. *)
Theorem error_detail_is_first_200 {W : Type}
    (answer : forall X : Type, call X -> W -> result X * W) (w : W)
    stream_url output_file duration quality :
  let r := exec answer
             (download_with_ffmpeg stream_url output_file duration quality)
             w in
  forall fin, In fin (omap exit_of r.1.1) -> returncode fin <> 0 ->
    r.1.2 = Returned VNone /\
    last (stdout_lines r.1.1) =
      Some (tagged quality
              [lit "❌ FFmpeg 错误: ";
               firstn 200 (decode_utf8_ignore (stderr fin))]) /\
    (length (firstn 200 (decode_utf8_ignore (stderr fin))) <= 200)%nat.
Proof.
  intros r fin Hin Hrc.
  pose proof (all_runs_exec answer _ _ w
                (download_with_ffmpeg_runs stream_url output_file duration
                   quality)) as H.
  cbv beta in H. fold r in H. destruct (H fin Hin Hrc) as [Ho Hl].
  repeat split; [exact Ho | exact Hl | apply firstn_le_length].
Qed.

(** A capture that fails with the diagnostic [connection reset]. *)
Lemma error_detail_connection_reset :
  let r := exec (scripted mixed)
             (download_with_ffmpeg (lit "http://h/s.flv")
                (lit "downloads/a.flv") None (lit "HD")) 1%N in
  last (stdout_lines r.1.1) =
    Some (lit "[HD] ❌ FFmpeg 错误: connection reset").
Proof.
  apply (error_detail_is_first_200 (scripted mixed) 1%N (lit "http://h/s.flv")
           (lit "downloads/a.flv") None (lit "HD")
           (MkFinished [] (list_byte_of_string "connection reset") 1)).
  - vm_compute. left. reflexivity.
  - simpl. lia.
Defined.

(** C8, as stated, fails: with a diagnostic of 201 characters, the detail
    logged is its first 200 characters, which are not its last 200. *)
Lemma error_detail_not_last_200 :
  let r := exec (scripted noisy)
             (download_with_ffmpeg (lit "http://h/s.flv")
                (lit "downloads/a.flv") None (lit "HD")) 0%N in
  let diagnostic := decode_utf8_ignore long_stderr in
  omap exit_of r.1.1 = [MkFinished [] long_stderr 1] /\
  length diagnostic = 201%nat /\
  last (stdout_lines r.1.1) =
    Some (tagged (lit "HD")
            [lit "❌ FFmpeg 错误: "; slice_to 200 diagnostic]) /\
  last (stdout_lines r.1.1) <>
    Some (tagged (lit "HD")
            [lit "❌ FFmpeg 错误: "; slice_last 200 diagnostic]).
Proof.
  cbv zeta.
  split; [vm_compute; reflexivity |].
  split; [vm_compute; reflexivity |].
  split; [vm_compute; reflexivity |].
  apply (proj1 (bool_decide_eq_false _)). vm_compute. reflexivity.
Qed.

(** ** One capture session *)

Lemma startswith_app a p s : startswith (a ++ p) (a ++ s) = startswith p s.
Proof.
  induction a as [| c a IH]; cbn [app startswith]; [reflexivity |].
  rewrite N.eqb_refl. exact IH.
Qed.

(** A line of the session that starts with the failure mark is a failure
    report under the session's label. *)
Lemma startswith_tagged q s rest :
  startswith (lit "❌") s = true ->
  startswith (fstr [lit "["; q; lit "] ❌"]) (tagged q (s :: rest)) = true.
Proof.
  intros H. unfold tagged, fstr. cbn [concat].
  rewrite !startswith_app.
  change (lit "] ❌") with (lit "] " ++ lit "❌").
  rewrite <- !app_assoc, startswith_app.
  assert (Hx : lit "❌" = [10060%N]) by (vm_compute; reflexivity).
  rewrite Hx in *.
  destruct s as [| c s]; [discriminate H |].
  cbn [startswith] in H.
  destruct (N.eqb_spec 10060 c) as [<- |]; [| discriminate H].
  cbn [app startswith]. rewrite N.eqb_refl. reflexivity.
Qed.

Lemma input_url_ffmpeg_cmd stream_url output_file duration :
  input_url (ffmpeg_cmd stream_url output_file duration) = Some stream_url.
Proof. rewrite ffmpeg_cmd_shape. reflexivity. Qed.

(** Walking the tree of a session: one case for each answer of a
    collaborator and for each test of the source. *)
Ltac walk_step :=
  match goal with
  | |- forall a : result _, _ => intros [? | [? | |]]
  | |- all_runs _ (try_except _ _) => apply all_runs_try
  | |- all_runs _ (capture _ _ _ _ _) => unfold capture
  | |- all_runs _ (download_with_ffmpeg _ _ _ _) =>
      unfold download_with_ffmpeg
  | |- all_runs _ (fetch_data _ _ _) => unfold fetch_data
  | |- all_runs _ (download_live_stream _ _ _ _ _) =>
      unfold download_live_stream
  | |- all_runs _ (if ?b then _ else _) => destruct b eqn:?
  | |- all_runs _ (match ?x with _ => _ end) => destruct x eqn:?
  | |- all_runs _ (mbind _ (if ?b then _ else _)) => destruct b eqn:?
  | |- all_runs _ (mbind _ (match ?x with _ => _ end)) => destruct x eqn:?
  | |- all_runs _ _ =>
      progress cbn [all_runs bind try_except mbind mret coro_bind coro_ret
                    perform print print_exc session_handler is_Exception app]
  | |- all_runs _ (bind _ _) => apply all_runs_bind
  | |- all_runs _ (mbind _ _) => apply all_runs_bind
  | |- match session_handler _ _ with _ => _ end =>
      progress cbn [session_handler]
  end.

Ltac walk := repeat walk_step.

(** The tests met on the way decide the observations made on the trace. *)
Ltac use_tests :=
  repeat match goal with
         | E : py_or ?a ?b = _, H : context [py_or ?a ?b] |- _ =>
             rewrite E in H
         | E : py_or ?a ?b = _ |- context [py_or ?a ?b] => rewrite E
         | E : (?x =? 0) = _, H : context [?x =? 0] |- _ => rewrite E in H
         end;
  simpl in *.

(** A session that met only failures it handles returns [None], after one
    attempt of the web strategy, and its last line reports the failure. *)
Lemma session_contained_runs url output_dir quality duration cookies :
  all_runs (fun tr o =>
     (forall r, o = Returned r -> r = VNone /\ count is_web tr = 1%nat) /\
     (contained tr = true ->
        o = Returned VNone /\
        (session_failed tr = true -> reported quality tr = true)))
   (download_live_stream url output_dir quality duration cookies).
Proof.
  walk.
  all: unfold contained, session_failed, resolution_failed, url_missing,
         exit_nonzero, raised_exception, reported.
  all: leaf_hyps.
  all: use_tests.
  all: leaf_hyps.
  all: try (apply startswith_tagged; vm_compute; reflexivity).
  all: leaf_close.
Qed.

(** A session whose resolved room is not live stops there. *)
Lemma session_not_live_runs url output_dir quality duration cookies :
  all_runs (fun tr o =>
     forall data, In data (omap resolved_by tr) ->
       py_ne_int (dict_get data (lit "status") (VInt 4)) 2 = true ->
       o = Returned VNone /\
       count is_stream_fetch tr = 0%nat /\
       spawned tr = [] /\
       last (stdout_lines tr) =
         Some (tagged quality
                 [lit "❌ 主播未开播 (status=";
                  py_str (dict_get data (lit "status") (VInt 4)); lit ")"]))
   (download_live_stream url output_dir quality duration cookies).
Proof.
  walk. all: leaf.
Qed.

(** The URL a session captures is the one [flv_url or m3u8_url] selects,
    and without any URL nothing is launched. *)
Lemma session_endpoint_runs url output_dir quality duration cookies :
  all_runs (fun tr o =>
     forall sd, In sd (omap stream_record_of tr) ->
       (forall cmd, In cmd (spawned tr) ->
          exists stream_url output_file,
            cmd = ffmpeg_cmd stream_url output_file duration /\
            py_or (flv_url sd) (m3u8_url sd) = Some stream_url /\
            stream_url <> []) /\
       (truthy_str (py_or (flv_url sd) (m3u8_url sd)) = false ->
          spawned tr = [] /\ o = Returned VNone /\
          last (stdout_lines tr) =
            Some (tagged quality [lit "❌ 未获取到流地址"])))
   (download_live_stream url output_dir quality duration cookies).
Proof.
  walk. all: leaf_hyps. all: use_tests. all: leaf_hyps.
  all: try (do 2 eexists; split; [reflexivity | split; [reflexivity | discriminate]]).
  all: leaf_close.
Qed.

Lemma py_ne_int_2 (v : pyval) : v <> VInt 2 -> py_ne_int v 2 = true.
Proof.
  destruct v as [| [|] | z | s | t r]; intros H; try reflexivity.
  unfold py_ne_int. destruct (Z.eqb_spec z 2) as [-> |]; [| reflexivity].
  contradiction H; reflexivity.
Qed.

Lemma truthy_str_present (u : option pystr) :
  truthy_str u = true <-> present u.
Proof.
  unfold present. destruct u as [[| c s] |]; simpl; split.
  - discriminate.
  - intros (s & H & Hs). inversion H; subst. contradiction Hs; reflexivity.
  - intros _. eexists. split; [reflexivity | discriminate].
  - reflexivity.
  - discriminate.
  - intros (s & H & _). discriminate H.
Qed.

Lemma truthy_str_absent (u : option pystr) :
  truthy_str u = false <-> ~ present u.
Proof.
  rewrite <- truthy_str_present. destruct (truthy_str u); split;
    congruence.
Qed.

(** C3: when the response of the resolution carries a status other than 2,
    the session returns [None] after the not-live line: it fetches no
    stream URL and launches no capture process, so no output file is
    written. *)
Theorem not_live_short_circuit {W : Type}
    (answer : forall X : Type, call X -> W -> result X * W) (w : W)
    url output_dir quality duration cookies :
  let r := exec answer
             (download_live_stream url output_dir quality duration cookies)
             w in
  forall data status,
    In data (omap resolved_by r.1.1) ->
    data !! lit "status" = Some status ->
    status <> VInt 2 ->
    r.1.2 = Returned VNone /\
    count is_stream_fetch r.1.1 = 0%nat /\
    count is_spawn r.1.1 = 0%nat /\
    spawned r.1.1 = [] /\
    last (stdout_lines r.1.1) =
      Some (tagged quality
              [lit "❌ 主播未开播 (status="; py_str status; lit ")"]).
Proof.
  intros r data status Hin Hst Hne.
  pose proof (all_runs_exec answer _ _ w
                (session_not_live_runs url output_dir quality duration
                   cookies)) as H.
  cbv beta in H. fold r in H. specialize (H data Hin).
  assert (Hget : dict_get data (lit "status") (VInt 4) = status)
    by (unfold dict_get; rewrite Hst; reflexivity).
  rewrite Hget in H. destruct (H (py_ne_int_2 status Hne)) as (Ho & Hf & Hs & Hl).
  repeat match goal with |- _ /\ _ => split end; try assumption.
  unfold count. clear - Hs. induction (r.1.1) as [| ev tr IH]; [reflexivity |].
  unfold spawned in Hs. simpl in Hs. simpl.
  destruct ev as [line | e | X c a]; simpl in *; try (apply IH; exact Hs).
  destruct c; simpl in *; try (apply IH; exact Hs). discriminate Hs.
Qed.

(** An offline room (status 4). *)
Lemma not_live_short_circuit_offline :
  let r := exec (scripted offline)
             (download_live_stream (lit "https://live.douyin.com/1")
                (lit "downloads") (lit "HD") (Some 600) None) 0%N in
  r.1.2 = Returned VNone /\
  count is_stream_fetch r.1.1 = 0%nat /\
  count is_spawn r.1.1 = 0%nat /\
  spawned r.1.1 = [] /\
  last (stdout_lines r.1.1) = Some (lit "[HD] ❌ 主播未开播 (status=4)").
Proof.
  apply (not_live_short_circuit (scripted offline) 0%N
           (lit "https://live.douyin.com/1") (lit "downloads") (lit "HD")
           (Some 600) None (room (VInt 4)) (VInt 4)).
  - vm_compute. left. reflexivity.
  - vm_compute. reflexivity.
  - discriminate.
Defined.

(** C10: when the response of the resolution has no [status] key, the
    status read is the default 4: the session prints the not-live line
    with that status and returns [None], having fetched no stream URL and
    launched no capture process; the missing key raises nothing. *)
Theorem missing_status_is_not_live {W : Type}
    (answer : forall X : Type, call X -> W -> result X * W) (w : W)
    url output_dir quality duration cookies :
  let r := exec answer
             (download_live_stream url output_dir quality duration cookies)
             w in
  forall data,
    In data (omap resolved_by r.1.1) ->
    data !! lit "status" = None ->
    dict_get data (lit "status") (VInt 4) = VInt 4 /\
    r.1.2 = Returned VNone /\
    count is_stream_fetch r.1.1 = 0%nat /\
    spawned r.1.1 = [] /\
    last (stdout_lines r.1.1) =
      Some (tagged quality [lit "❌ 主播未开播 (status="; lit "4"; lit ")"]).
Proof.
  intros r data Hin Hst.
  pose proof (all_runs_exec answer _ _ w
                (session_not_live_runs url output_dir quality duration
                   cookies)) as H.
  cbv beta in H. fold r in H. specialize (H data Hin).
  assert (Hget : dict_get data (lit "status") (VInt 4) = VInt 4)
    by (unfold dict_get; rewrite Hst; reflexivity).
  rewrite Hget in H. destruct (H eq_refl) as (Ho & Hf & Hs & Hl).
  repeat match goal with |- _ /\ _ => split end; assumption.
Qed.

(** A response without a status. *)
Lemma missing_status_example :
  let r := exec (scripted no_status)
             (download_live_stream (lit "https://live.douyin.com/1")
                (lit "downloads") (lit "HD") (Some 600) None) 0%N in
  dict_get room_without_status (lit "status") (VInt 4) = VInt 4 /\
  r.1.2 = Returned VNone /\
  count is_stream_fetch r.1.1 = 0%nat /\
  spawned r.1.1 = [] /\
  last (stdout_lines r.1.1) = Some (lit "[HD] ❌ 主播未开播 (status=4)").
Proof.
  apply (missing_status_is_not_live (scripted no_status) 0%N
           (lit "https://live.douyin.com/1") (lit "downloads") (lit "HD")
           (Some 600) None room_without_status).
  - vm_compute. left. reflexivity.
  - vm_compute. reflexivity.
Defined.

(** C6: of a stream record, the FLV URL is the one captured whenever it is
    present (a string that is not empty); the m3u8 URL is captured only
    when the FLV URL is absent; with neither, the session launches no
    capture process and returns. *)
Theorem endpoint_selection {W : Type}
    (answer : forall X : Type, call X -> W -> result X * W) (w : W)
    url output_dir quality duration cookies :
  let r := exec answer
             (download_live_stream url output_dir quality duration cookies)
             w in
  forall sd, In sd (omap stream_record_of r.1.1) ->
    (present (flv_url sd) ->
       py_or (flv_url sd) (m3u8_url sd) = flv_url sd /\
       forall cmd, In cmd (spawned r.1.1) -> input_url cmd = flv_url sd) /\
    (~ present (flv_url sd) ->
       py_or (flv_url sd) (m3u8_url sd) = m3u8_url sd /\
       forall cmd, In cmd (spawned r.1.1) ->
         input_url cmd = m3u8_url sd /\ present (m3u8_url sd)) /\
    (~ present (flv_url sd) -> ~ present (m3u8_url sd) ->
       spawned r.1.1 = [] /\ count is_spawn r.1.1 = 0%nat /\
       r.1.2 = Returned VNone).
Proof.
  intros r sd Hin.
  pose proof (all_runs_exec answer _ _ w
                (session_endpoint_runs url output_dir quality duration
                   cookies)) as H.
  cbv beta in H. fold r in H. destruct (H sd Hin) as [Hcmd Hnone].
  split; [| split].
  - intros Hp. apply truthy_str_present in Hp.
    assert (Hor : py_or (flv_url sd) (m3u8_url sd) = flv_url sd)
      by (unfold py_or; rewrite Hp; reflexivity).
    split; [exact Hor |]. intros cmd Hc.
    destruct (Hcmd cmd Hc) as (u & out & -> & Hu & _).
    rewrite input_url_ffmpeg_cmd. congruence.
  - intros Hp. apply truthy_str_absent in Hp.
    assert (Hor : py_or (flv_url sd) (m3u8_url sd) = m3u8_url sd)
      by (unfold py_or; rewrite Hp; reflexivity).
    split; [exact Hor |]. intros cmd Hc.
    destruct (Hcmd cmd Hc) as (u & out & -> & Hu & Hne).
    rewrite input_url_ffmpeg_cmd. split; [congruence |].
    exists u. split; [congruence | exact Hne].
  - intros Hp Hm. apply truthy_str_absent in Hp, Hm.
    assert (Hor : truthy_str (py_or (flv_url sd) (m3u8_url sd)) = false)
      by (unfold py_or; rewrite Hp; exact Hm).
    destruct (Hnone Hor) as (Hs & Ho & _).
    split; [exact Hs | split; [| exact Ho]].
    unfold count. clear - Hs. induction (r.1.1) as [| ev tr IH]; [reflexivity |].
    unfold spawned in Hs. simpl in Hs. simpl.
    destruct ev as [line | e | X c a]; simpl in *; try (apply IH; exact Hs).
    destruct c; simpl in *; try (apply IH; exact Hs). discriminate Hs.
Qed.

(** Both URLs present: the FLV one is captured. *)
Lemma endpoint_selection_prefers_flv :
  let r := exec (scripted live_ok)
             (download_live_stream (lit "https://live.douyin.com/1")
                (lit "downloads") (lit "HD") (Some 600) None) 0%N in
  py_or (flv_url both_urls) (m3u8_url both_urls) = flv_url both_urls /\
  forall cmd, In cmd (spawned r.1.1) -> input_url cmd = flv_url both_urls.
Proof.
  apply (endpoint_selection (scripted live_ok) 0%N
           (lit "https://live.douyin.com/1") (lit "downloads") (lit "HD")
           (Some 600) None both_urls).
  - vm_compute. left. reflexivity.
  - eexists. split; [reflexivity | vm_compute; discriminate].
Defined.

(** ** Sessions run together *)

Lemma session_events_app i tr1 tr2 :
  session_events i (tr1 ++ tr2) =
  session_events i tr1 ++ session_events i tr2.
Proof. unfold session_events. apply omap_app. Qed.

Lemma session_events_tag_same i evs : session_events i (tag i evs) = evs.
Proof.
  unfold session_events, tag.
  induction evs as [| ev evs IH]; [reflexivity |].
  cbn. rewrite Nat.eqb_refl. cbn. f_equal. exact IH.
Qed.

Lemma session_events_tag_other i j evs :
  i <> j -> session_events j (tag i evs) = [].
Proof.
  intros Hne. unfold session_events, tag.
  induction evs as [| ev evs IH]; [reflexivity |].
  cbn. destruct (Nat.eqb_spec i j) as [E | _]; [contradiction | exact IH].
Qed.

Lemma first_raised_existsb {R : Type} (pool : list (coro R)) :
  existsb is_raise pool = false <-> first_raised pool = None.
Proof.
  induction pool as [| p pool IH]; simpl; [tauto |].
  destruct p; simpl; try exact IH. split; discriminate.
Qed.

Lemma first_raised_lookup {R : Type} (pool : list (coro R)) e :
  first_raised pool = Some e -> exists i, pool !! i = Some (Raise e).
Proof.
  induction pool as [| p pool IH]; simpl; [discriminate |].
  destruct p; try (intros H; destruct (IH H) as [i Hi]; exists (S i); exact Hi).
  intros H. inversion H; subst. exists 0%nat. reflexivity.
Qed.

Lemma returned_values_lookup {R : Type} (pool : list (coro R)) :
  Forall (fun p => is_ret p = true) pool ->
  length (returned_values pool) = length pool /\
  forall i p, pool !! i = Some p ->
    exists r, p = Ret r /\ returned_values pool !! i = Some r.
Proof.
  induction 1 as [| p pool Hp _ IH]; simpl.
  - split; [reflexivity |]. intros i p H. destruct i; discriminate H.
  - destruct p; try discriminate Hp. destruct IH as [IHl IHi]. simpl.
    split; [f_equal; exact IHl |].
    intros [| i] p H; simpl in *.
    + inversion H; subst. eexists; split; reflexivity.
    + apply IHi; exact H.
Qed.

Section Pool.

Context {W : Type}.
Variable answer : forall X : Type, call X -> W -> result X * W.

(** Under any schedule each task moves along its own tree, by the effects
    recorded under its own index: a step of one task leaves the others as
    they are. *)
Lemma run_schedule_sound {R : Type} (sched : list nat) :
  forall (pool : list (coro R)) w pool' w' tr,
    run_schedule answer sched pool w = (pool', w', tr) ->
    length pool' = length pool /\
    forall i p, pool !! i = Some p ->
      exists p', pool' !! i = Some p' /\ runs_to p (session_events i tr) p'.
Proof.
  induction sched as [| i sched IH]; intros pool w pool' w' tr E; simpl in E.
  - inversion E; subst. split; [reflexivity |].
    intros i p Hp. exists p. split; [exact Hp | apply runs_here].
  - destruct (existsb is_raise pool).
    { inversion E; subst. split; [reflexivity |].
      intros j p Hp. exists p. split; [exact Hp | apply runs_here]. }
    destruct (pool !! i) as [q |] eqn:Hq; [| eapply IH; exact E].
    destruct (step answer q w) as [[q' w1] evs] eqn:Es.
    destruct (run_schedule answer sched (<[i:=q']> pool) w1)
      as [[pool1 w2] tr1] eqn:Er.
    inversion E; subst. destruct (IH _ _ _ _ _ Er) as [Hlen Hall].
    rewrite length_insert in Hlen. split; [exact Hlen |].
    intros j p Hp. rewrite session_events_app.
    destruct (Nat.eq_dec i j) as [<- | Hne].
    + rewrite session_events_tag_same.
      assert (Hi : (<[i:=q']> pool) !! i = Some q').
      { apply list_lookup_insert_eq. eapply lookup_lt_Some; exact Hq. }
      destruct (Hall i q' Hi) as (p' & Hp' & Hr).
      exists p'. split; [exact Hp' |].
      rewrite Hq in Hp. inversion Hp; subst.
      eapply runs_to_app; [eapply step_runs_to; exact Es | exact Hr].
    + rewrite session_events_tag_other by exact Hne.
      apply Hall. rewrite list_lookup_insert_ne by exact Hne. exact Hp.
Qed.

(** The tasks drained at the end run to their end, each along its own
    tree, unless one raises: the tasks after it stay where they stand. *)
Lemma drain_sound {R : Type} (todo : list (coro R)) :
  forall i w pool' w' tr,
    drain answer i todo w = (pool', w', tr) ->
    length pool' = length todo /\
    (forall j p, todo !! j = Some p ->
       exists p', pool' !! j = Some p' /\
                  runs_to p (session_events (i + j) tr) p') /\
    (forall k, (k < i)%nat -> session_events k tr = []) /\
    (first_raised pool' = None ->
       Forall (fun p => is_ret p = true) pool').
Proof.
  induction todo as [| q todo IH]; intros i w pool' w' tr E; simpl in E.
  - inversion E; subst. repeat split; try reflexivity; [| constructor].
    intros j p H. destruct j; discriminate H.
  - destruct (exec answer q w) as [[tr1 o] w1] eqn:Ee.
    pose proof (exec_runs_to answer q w tr1 o w1 Ee) as Hq.
    destruct o as [r | e].
    + destruct (drain answer (S i) todo w1) as [[rest' w2] tr2] eqn:Ed.
      inversion E; subst.
      destruct (IH _ _ _ _ _ Ed) as (Hlen & Hall & Hlow & Hret).
      split; [simpl; f_equal; exact Hlen |].
      split; [| split].
      * intros [| j] p Hp; simpl in Hp; rewrite session_events_app.
        -- inversion Hp; subst. exists (Ret r). split; [reflexivity |].
           rewrite Nat.add_0_r, session_events_tag_same.
           rewrite (Hlow i) by lia. rewrite app_nil_r. exact Hq.
        -- rewrite session_events_tag_other by lia.
           destruct (Hall j p Hp) as (p' & Hp' & Hr).
           exists p'. split; [exact Hp' |].
           replace (i + S j)%nat with (S i + j)%nat by lia. exact Hr.
      * intros k Hk. rewrite session_events_app.
        rewrite session_events_tag_other by lia.
        apply Hlow. lia.
      * simpl. intros Hf. constructor; [reflexivity | apply Hret; exact Hf].
    + inversion E; subst.
      split; [reflexivity |]. split; [| split].
      * intros [| j] p Hp; simpl in Hp.
        -- inversion Hp; subst. exists (Raise e). split; [reflexivity |].
           rewrite Nat.add_0_r, session_events_tag_same. exact Hq.
        -- exists p. split; [exact Hp |].
           rewrite session_events_tag_other by lia. apply runs_here.
      * intros k Hk. apply session_events_tag_other. lia.
      * simpl. discriminate.
Qed.

Lemma run_pool_sound {R : Type} (tasks : list (coro R)) sched w pool' w' tr :
  run_pool answer tasks sched w = (pool', w', tr) ->
  length pool' = length tasks /\
  (forall i p, tasks !! i = Some p ->
     exists p', pool' !! i = Some p' /\ runs_to p (session_events i tr) p') /\
  (first_raised pool' = None -> Forall (fun p => is_ret p = true) pool').
Proof.
  unfold run_pool. intros E.
  destruct (run_schedule answer sched tasks w) as [[pool1 w1] tr1] eqn:Er.
  destruct (run_schedule_sound _ _ _ _ _ _ Er) as [Hlen1 Hall1].
  destruct (existsb is_raise pool1) eqn:Hx.
  - inversion E; subst. split; [exact Hlen1 |]. split; [exact Hall1 |].
    intros Hf. apply first_raised_existsb in Hf. congruence.
  - destruct (drain answer 0 pool1 w1) as [[pool2 w2] tr2] eqn:Ed.
    inversion E; subst.
    destruct (drain_sound _ _ _ _ _ _ Ed) as (Hlen2 & Hall2 & _ & Hret).
    split; [congruence |]. split; [| exact Hret].
    intros i p Hp. destruct (Hall1 i p Hp) as (p1 & Hp1 & Hr1).
    destruct (Hall2 i p1 Hp1) as (p2 & Hp2 & Hr2).
    exists p2. split; [exact Hp2 |].
    rewrite session_events_app. eapply runs_to_app; eassumption.
Qed.

(** What [gather] evaluates to: when it returns, one value for each task,
    at the task's own position, each the value its task returned at the
    end of a complete run of its own; when it raises, the exception one of
    the tasks raised. *)
Lemma gather_sound {R : Type} (tasks : list (coro R)) sched w :
  let g := gather answer tasks sched w in
  match g.1.2 with
  | Returned rs =>
      length rs = length tasks /\
      forall i p, tasks !! i = Some p ->
        exists r, rs !! i = Some r /\
                  runs_to p (session_events i g.1.1) (Ret r)
  | Raised e =>
      exists i p, tasks !! i = Some p /\
                  runs_to p (session_events i g.1.1) (Raise e)
  end.
Proof.
  unfold gather.
  destruct (run_pool answer tasks sched w) as [[pool' w'] tr] eqn:E.
  destruct (run_pool_sound _ _ _ _ _ _ E) as (Hlen & Hall & Hret).
  destruct (first_raised pool') as [e |] eqn:Hf; simpl.
  - destruct (first_raised_lookup _ _ Hf) as [i Hi].
    assert (Hlt : (i < length tasks)%nat)
      by (rewrite <- Hlen; eapply lookup_lt_Some; exact Hi).
    destruct (lookup_lt_is_Some_2 tasks i Hlt) as [p Hp].
    destruct (Hall i p Hp) as (p' & Hp' & Hr).
    exists i, p. split; [exact Hp |]. congruence.
  - destruct (returned_values_lookup pool' (Hret eq_refl)) as [Hl Hv].
    split; [congruence |].
    intros i p Hp. destruct (Hall i p Hp) as (p' & Hp' & Hr).
    destruct (Hv i p' Hp') as (r & -> & Hri).
    exists r. split; assumption.
Qed.

End Pool.

(** ** Counting over the sessions of a run *)

Lemma count_cons f ev tr :
  count f (ev :: tr) = ((if f ev then 1 else 0) + count f tr)%nat.
Proof. unfold count. simpl. destruct (f ev); reflexivity. Qed.

Lemma count_app f tr1 tr2 :
  count f (tr1 ++ tr2) = (count f tr1 + count f tr2)%nat.
Proof. unfold count. rewrite List.filter_app, length_app. reflexivity. Qed.

Lemma sum_list_zero {A : Type} (l : list A) :
  sum_list (map (fun _ => 0%nat) l) = 0%nat.
Proof. induction l; simpl; auto. Qed.

Lemma sum_list_plus {A : Type} (g h : A -> nat) (l : list A) :
  sum_list (map (fun i => (g i + h i)%nat) l) =
  (sum_list (map g l) + sum_list (map h l))%nat.
Proof. induction l as [| a l IH]; simpl; [reflexivity | rewrite IH; lia]. Qed.

Lemma sum_list_at j c n : forall s,
  (s <= j < s + n)%nat ->
  sum_list (map (fun i => if Nat.eqb j i then c else 0%nat) (seq s n)) = c.
Proof.
  induction n as [| n IH]; intros s H; [lia |].
  simpl. destruct (Nat.eqb_spec j s) as [-> | Hne].
  - assert (Hz : sum_list
                   (map (fun i => if Nat.eqb s i then c else 0%nat)
                      (seq (S s) n)) = 0%nat).
    { clear. assert (G : forall m t, (s < t)%nat ->
                 sum_list (map (fun i => if Nat.eqb s i then c else 0%nat)
                             (seq t m)) = 0%nat).
      { induction m as [| m IHm]; intros t Ht; [reflexivity |].
        simpl. destruct (Nat.eqb_spec s t); [lia |].
        apply IHm. lia. }
      apply G. lia. }
    rewrite Hz. lia.
  - rewrite IH by lia. reflexivity.
Qed.

(** The effects of a run counted at once, or session by session. *)
Lemma count_by_session f n tr :
  sessions_below n tr ->
  count f (map snd tr) =
  sum_list (map (fun i => count f (session_events i tr)) (seq 0 n)).
Proof.
  induction 1 as [| [t ev] tr (j & Ht & Hj) _ IH].
  - simpl. rewrite sum_list_zero. reflexivity.
  - simpl in Ht. subst t.
    change (map snd ((SessionTask j, ev) :: tr)) with (ev :: map snd tr).
    rewrite count_cons, IH.
    rewrite <- (sum_list_at j (if f ev then 1 else 0)%nat n 0) at 1 by lia.
    rewrite <- sum_list_plus. f_equal. apply map_ext. intros i.
    change (session_events i ((SessionTask j, ev) :: tr))
      with (match (if Nat.eqb j i then Some ev else None) with
            | Some e => e :: session_events i tr
            | None => session_events i tr
            end).
    destruct (Nat.eqb j i); [rewrite count_cons |]; reflexivity.
Qed.

Lemma sum_list_ones {A : Type} (g : A -> nat) (l : list A) :
  (forall i, In i l -> g i = 1%nat) -> sum_list (map g l) = length l.
Proof.
  induction l as [| a l IH]; intros H; simpl; [reflexivity |].
  rewrite (H a) by (left; reflexivity). rewrite IH; [reflexivity |].
  intros i Hi. apply H. right. exact Hi.
Qed.

Lemma sessions_below_app n tr1 tr2 :
  sessions_below n tr1 -> sessions_below n tr2 ->
  sessions_below n (tr1 ++ tr2).
Proof. unfold sessions_below. intros. apply Forall_app; split; assumption. Qed.

Lemma sessions_below_tag n i evs :
  (i < n)%nat -> sessions_below n (tag i evs).
Proof.
  intros Hi. unfold sessions_below, tag. apply Forall_forall.
  intros te Hin. apply list_elem_of_In, in_map_iff in Hin.
  destruct Hin as (ev & <- & _). exists i. split; [reflexivity | exact Hi].
Qed.

Lemma contained_session_events i tr :
  contained (map snd tr) = true -> contained (session_events i tr) = true.
Proof.
  unfold contained, session_events.
  induction tr as [| [t ev] tr IH]; [reflexivity |].
  simpl. intros H. apply andb_true_iff in H as [Hev Htr].
  destruct t as [| j]; cbn; [exact (IH Htr) |].
  destruct (Nat.eqb j i); cbn; [| exact (IH Htr)].
  rewrite Hev. exact (IH Htr).
Qed.

Section PoolTags.

Context {W : Type}.
Variable answer : forall X : Type, call X -> W -> result X * W.

Lemma run_schedule_below {R : Type} (sched : list nat) :
  forall (pool : list (coro R)) w pool' w' tr,
    run_schedule answer sched pool w = (pool', w', tr) ->
    sessions_below (length pool) tr.
Proof.
  induction sched as [| i sched IH]; intros pool w pool' w' tr E; simpl in E.
  - inversion E; subst. constructor.
  - destruct (existsb is_raise pool); [inversion E; subst; constructor |].
    destruct (pool !! i) as [q |] eqn:Hq; [| eapply IH; exact E].
    destruct (step answer q w) as [[q' w1] evs] eqn:Es.
    destruct (run_schedule answer sched (<[i:=q']> pool) w1)
      as [[pool1 w2] tr1] eqn:Er.
    inversion E; subst. apply sessions_below_app.
    + apply sessions_below_tag. eapply lookup_lt_Some; exact Hq.
    + pose proof (IH _ _ _ _ _ Er) as H. rewrite length_insert in H. exact H.
Qed.

Lemma drain_below {R : Type} (todo : list (coro R)) :
  forall i w pool' w' tr,
    drain answer i todo w = (pool', w', tr) ->
    sessions_below (i + length todo) tr.
Proof.
  induction todo as [| q todo IH]; intros i w pool' w' tr E; simpl in E.
  - inversion E; subst. constructor.
  - destruct (exec answer q w) as [[tr1 o] w1] eqn:Ee.
    destruct o as [r | e].
    + destruct (drain answer (S i) todo w1) as [[rest' w2] tr2] eqn:Ed.
      inversion E; subst. apply sessions_below_app.
      * apply sessions_below_tag. simpl. lia.
      * pose proof (IH _ _ _ _ _ Ed) as H.
        replace (i + length (q :: todo))%nat with (S i + length todo)%nat
          by (simpl; lia).
        exact H.
    + inversion E; subst. apply sessions_below_tag. simpl. lia.
Qed.

Lemma gather_below {R : Type} (tasks : list (coro R)) sched w :
  sessions_below (length tasks) (gather answer tasks sched w).1.1.
Proof.
  unfold gather, run_pool.
  destruct (run_schedule answer sched tasks w) as [[pool1 w1] tr1] eqn:Er.
  pose proof (run_schedule_below _ _ _ _ _ _ Er) as H1.
  destruct (run_schedule_sound answer _ _ _ _ _ _ Er) as [Hlen _].
  destruct (existsb is_raise pool1).
  - destruct (first_raised pool1); exact H1.
  - destruct (drain answer 0 pool1 w1) as [[pool2 w2] tr2] eqn:Ed.
    pose proof (drain_below _ _ _ _ _ _ Ed) as H2.
    simpl in H2. rewrite Hlen in H2.
    destruct (first_raised pool2); simpl; apply sessions_below_app;
      assumption.
Qed.

End PoolTags.

(** ** The run of [main] *)

Lemma lookup_map_Some {A B : Type} (f : A -> B) (l : list A) i x :
  l !! i = Some x -> map f l !! i = Some (f x).
Proof.
  revert i. induction l as [| a l IH]; intros [| i] H; simpl in *;
    try discriminate H.
  - inversion H; subst. reflexivity.
  - apply IH. exact H.
Qed.

Lemma lookup_map_inv {A B : Type} (f : A -> B) (l : list A) i y :
  map f l !! i = Some y -> exists x, l !! i = Some x /\ y = f x.
Proof.
  revert i. induction l as [| a l IH]; intros [| i] H; simpl in *;
    try discriminate H.
  - inversion H; subst. eexists; split; reflexivity.
  - apply IH. exact H.
Qed.

Lemma session_events_main i ev tr :
  session_events i ((MainTask, ev) :: tr) = session_events i tr.
Proof. reflexivity. Qed.

Section Main.

Context {W : Type}.
Variable answer : forall X : Type, call X -> W -> result X * W.
Variables (url output_dir : pystr) (duration : option Z)
          (cookies : option pystr).

(** [main] adds its two lines around the trace of [gather], returns
    [None] when [gather] returns and raises what [gather] raises. *)
Lemma main_with_gather quality_list sched w :
  let m := main_with answer url output_dir duration cookies quality_list
             sched w in
  let g := gather answer
             (map (fun q =>
                     download_live_stream url output_dir q duration cookies)
                quality_list) sched w in
  m.1.2 = match g.1.2 with
          | Raised e => Raised e
          | Returned _ => Returned VNone
          end /\
  (forall i, session_events i m.1.1 = session_events i g.1.1) /\
  (forall f, (forall line, f (EvStdout line) = false) ->
     count f (map snd m.1.1) = count f (map snd g.1.1)) /\
  contained (map snd m.1.1) = contained (map snd g.1.1).
Proof.
  unfold main_with.
  destruct (gather answer _ sched w) as [[tr o] w'].
  destruct o as [rs | e]; cbn [fst snd].
  - split; [reflexivity |]. split; [| split].
    + intros i. rewrite session_events_main, session_events_app.
      rewrite session_events_main. apply app_nil_r.
    + intros f Hf. cbn [map fst snd]. rewrite count_cons, Hf, map_app, count_app.
      cbn [map fst snd]. rewrite count_cons, Hf.
      change (count f []) with 0%nat. lia.
    + unfold contained. cbn [map forallb fst snd]. rewrite map_app, forallb_app.
      cbn. rewrite andb_true_r. reflexivity.
  - split; [reflexivity |]. split; [| split].
    + intros i. reflexivity.
    + intros f Hf. cbn [map fst snd]. rewrite count_cons, Hf. reflexivity.
    + reflexivity.
Qed.

End Main.

Section Orchestration.

Context {W : Type}.
Variable answer : forall X : Type, call X -> W -> result X * W.
Variables (url output_dir : pystr) (duration : option Z)
          (cookies : option pystr).

(** C1: a session whose failures are resolution errors, a missing stream
    URL, a capture process that could not be launched or exited with a
    non-zero code (any [Exception] raised inside its [try] block, or a
    [KeyboardInterrupt]) returns [None] and reports the failure under its
    own label; and in a run of [main] where all failures are of that kind,
    [gather] never re-raises: [main] returns, and every session has run to
    its own end along its own tree, whatever the schedule and whatever
    happened in the others. *)
Theorem session_isolation (quality_list : list pystr) (sched : list nat)
    (w : W) :
  (forall quality w0,
     let r := exec answer
                (download_live_stream url output_dir quality duration
                   cookies) w0 in
     contained r.1.1 = true ->
     r.1.2 = Returned VNone /\
     (session_failed r.1.1 = true -> reported quality r.1.1 = true)) /\
  let m := main_with answer url output_dir duration cookies quality_list
             sched w in
  (contained (map snd m.1.1) = true ->
   m.1.2 = Returned VNone /\
   forall i quality, quality_list !! i = Some quality ->
     runs_to (download_live_stream url output_dir quality duration cookies)
       (session_events i m.1.1) (Ret VNone) /\
     (session_failed (session_events i m.1.1) = true ->
      reported quality (session_events i m.1.1) = true)).
Proof.
  split.
  - intros quality w0 r.
    pose proof (all_runs_exec answer _ _ w0
                  (session_contained_runs url output_dir quality duration
                     cookies)) as H.
    cbv beta in H. fold r in H. apply H.
  - intros m Hc.
    destruct (main_with_gather answer url output_dir duration cookies
                quality_list sched w) as (Ho & Hev & _ & Hcont).
    fold m in Ho, Hev, Hcont.
    set (tasks := map (fun q => download_live_stream url output_dir q
                                  duration cookies) quality_list) in *.
    pose proof (gather_sound answer tasks sched w) as Hg. cbv zeta in Hg.
    set (g := gather answer tasks sched w) in *.
    rewrite Hcont in Hc.
    destruct (g.1.2) as [rs | e].
    + split; [exact Ho |]. destruct Hg as [_ Hall].
      intros i quality Hq. rewrite Hev.
      destruct (Hall i _ (lookup_map_Some _ _ _ _ Hq)) as (r & _ & Hr).
      pose proof (all_runs_sound _ _ _ (Returned r)
                    (session_contained_runs url output_dir quality duration
                       cookies) Hr) as [Hret Hcon].
      destruct (Hret r eq_refl) as [-> _].
      split; [exact Hr |].
      apply Hcon. apply contained_session_events. exact Hc.
    + exfalso. destruct Hg as (i & p & Hp & Hr).
      apply lookup_map_inv in Hp as (quality & Hq & ->).
      pose proof (all_runs_sound _ _ _ (Raised e)
                    (session_contained_runs url output_dir quality duration
                       cookies) Hr) as [_ Hcon].
      destruct (Hcon (contained_session_events i _ Hc)) as [Habs _].
      discriminate Habs.
Qed.

(** C4, as amended: resolution is part of every session.  In a run of
    [main] that returns, each session has attempted the web strategy
    exactly once, for itself, so a run with N labels resolves the room N
    times. *)
Theorem resolution_once_per_session (quality_list : list pystr)
    (sched : list nat) (w : W) :
  let m := main_with answer url output_dir duration cookies quality_list
             sched w in
  forall v, m.1.2 = Returned v ->
    (forall i, (i < length quality_list)%nat ->
       count is_web (session_events i m.1.1) = 1%nat) /\
    count is_web (map snd m.1.1) = length quality_list.
Proof.
  intros m v Hv.
  destruct (main_with_gather answer url output_dir duration cookies
              quality_list sched w) as (Ho & Hev & Hcount & _).
  fold m in Ho, Hev, Hcount.
  set (tasks := map (fun q => download_live_stream url output_dir q
                                duration cookies) quality_list) in *.
  pose proof (gather_sound answer tasks sched w) as Hg. cbv zeta in Hg.
  pose proof (gather_below answer tasks sched w) as Hb.
  set (g := gather answer tasks sched w) in *.
  destruct (g.1.2) as [rs | e]; [| rewrite Ho in Hv; discriminate Hv].
  destruct Hg as [_ Hall].
  assert (Hone : forall i, (i < length quality_list)%nat ->
                   count is_web (session_events i g.1.1) = 1%nat).
  { intros i Hi. destruct (lookup_lt_is_Some_2 quality_list i Hi) as [q Hq].
    destruct (Hall i _ (lookup_map_Some _ _ _ _ Hq)) as (r & _ & Hr).
    pose proof (all_runs_sound _ _ _ (Returned r)
                  (session_contained_runs url output_dir q duration cookies)
                  Hr) as [Hret _].
    apply (Hret r eq_refl). }
  split.
  - intros i Hi. rewrite Hev. apply Hone. exact Hi.
  - rewrite (Hcount is_web) by reflexivity.
    unfold tasks in Hb. rewrite length_map in Hb.
    rewrite (count_by_session is_web _ _ Hb).
    rewrite sum_list_ones; [apply length_seq |].
    intros i Hi. apply in_seq in Hi. apply Hone. lia.
Qed.

(** C5, as amended: when [gather] returns, it yields one value for each
    requested label, at the label's own position whatever the schedule,
    and each is the [None] its session returned at the end of its own run;
    [main] drops that list and returns [None]. *)
Theorem one_result_per_label (quality_list : list pystr) (sched : list nat)
    (w : W) :
  let g := gather answer
             (map (fun q =>
                     download_live_stream url output_dir q duration cookies)
                quality_list) sched w in
  let m := main_with answer url output_dir duration cookies quality_list
             sched w in
  forall rs, g.1.2 = Returned rs ->
    length rs = length quality_list /\
    rs = map (fun _ => VNone) quality_list /\
    m.1.2 = Returned VNone /\
    forall i quality, quality_list !! i = Some quality ->
      rs !! i = Some VNone /\
      runs_to (download_live_stream url output_dir quality duration cookies)
        (session_events i g.1.1) (Ret VNone).
Proof.
  intros g m rs Hrs.
  destruct (main_with_gather answer url output_dir duration cookies
              quality_list sched w) as (Ho & _).
  fold m g in Ho. rewrite Hrs in Ho.
  pose proof (gather_sound answer _ sched w : let g0 := g in _) as Hg.
  cbv zeta in Hg. rewrite Hrs in Hg. destruct Hg as [Hlen Hall].
  rewrite length_map in Hlen.
  assert (Hi : forall i quality, quality_list !! i = Some quality ->
                 rs !! i = Some VNone /\
                 runs_to (download_live_stream url output_dir quality
                            duration cookies)
                   (session_events i g.1.1) (Ret VNone)).
  { intros i quality Hq.
    destruct (Hall i _ (lookup_map_Some _ _ _ _ Hq)) as (r & Hri & Hr).
    pose proof (all_runs_sound _ _ _ (Returned r)
                  (session_contained_runs url output_dir quality duration
                     cookies) Hr) as [Hret _].
    destruct (Hret r eq_refl) as [-> _]. split; assumption. }
  split; [exact Hlen |]. split; [| split; [exact Ho | exact Hi]].
  apply list_eq. intros i.
  destruct (quality_list !! i) as [q |] eqn:Hq.
  - rewrite (proj1 (Hi i q Hq)). symmetry.
    apply (lookup_map_Some (fun _ => VNone) _ _ _ Hq).
  - apply lookup_ge_None in Hq.
    rewrite (proj2 (lookup_ge_None rs i)) by lia.
    symmetry. apply lookup_ge_None. rewrite length_map. exact Hq.
Qed.

End Orchestration.

(** ** Runs of the examples *)

(** The five sessions of [main] against a room where the label [SD] has no
    URL and the second capture process fails: every failure stays in its
    session and [main] returns. *)
Lemma session_isolation_mixed_run :
  let m := main (scripted mixed) (round_robin 5 4) 0%N in
  contained (map snd m.1.1) = true /\
  m.1.2 = Returned VNone /\
  map (fun i => session_failed (session_events i m.1.1)) [0; 1; 2; 3; 4]%nat =
    [false; true; false; true; false].
Proof.
  assert (Hc : contained
                 (map snd (main (scripted mixed) (round_robin 5 4) 0%N).1.1) =
               true) by (vm_compute; reflexivity).
  split; [exact Hc |]. split; [| vm_compute; reflexivity].
  apply (proj2 (session_isolation (scripted mixed)
                  (lit "https://live.douyin.com/901113773259")
                  (lit "downloads") (Some 600) None
                  [lit "OD"; lit "UHD"; lit "HD"; lit "SD"; lit "LD"]
                  (round_robin 5 4) 0%N) Hc).
Defined.

(** The set-up of a session stands before its [try] block: when the
    output directory cannot be created the exception leaves the session,
    [gather] re-raises it and [main] raises. *)
Example main_raises_when_setup_fails :
  (main (scripted no_dir) (round_robin 5 4) 0%N).1.2 =
    Raised (PyException (lit "File exists: 'downloads'")).
Proof. vm_compute. reflexivity. Qed.

(** C4, as stated, fails: in the run of [main] over its five labels the
    web strategy is attempted five times, once inside each session, not
    once before the sessions start. *)
Lemma resolution_repeated_per_quality :
  let m := main (scripted live_ok) (round_robin 5 4) 0%N in
  m.1.2 = Returned VNone /\
  count is_web (map snd m.1.1) = 5%nat /\
  count is_web (map snd m.1.1) <> 1%nat /\
  map (fun i => count is_web (session_events i m.1.1)) [0; 1; 2; 3; 4]%nat =
    [1; 1; 1; 1; 1]%nat.
Proof.
  cbv zeta. split; [vm_compute; reflexivity |].
  split; [vm_compute; reflexivity |].
  split; [vm_compute; discriminate | vm_compute; reflexivity].
Qed.

(** The run of [main] over its five labels, all captures succeeding. *)
Lemma resolution_once_per_session_main :
  let m := main (scripted live_ok) (round_robin 5 4) 0%N in
  (forall i, (i < 5)%nat -> count is_web (session_events i m.1.1) = 1%nat) /\
  count is_web (map snd m.1.1) = 5%nat.
Proof.
  apply (resolution_once_per_session (scripted live_ok)
           (lit "https://live.douyin.com/901113773259")
           (lit "downloads") (Some 600) None
           [lit "OD"; lit "UHD"; lit "HD"; lit "SD"; lit "LD"]
           (round_robin 5 4) 0%N VNone).
  vm_compute. reflexivity.
Defined.

(** C5, as stated, fails: [main] is asked for five labels and returns
    [None], not a sequence of five outcomes; the values [gather] collected
    are five times [None] although the sessions ended differently. *)
Lemma main_returns_no_report :
  let m := main (scripted mixed) (round_robin 5 4) 0%N in
  let g := gather (scripted mixed)
             (map (fun q =>
                     download_live_stream
                       (lit "https://live.douyin.com/901113773259")
                       (lit "downloads") q (Some 600) None)
                [lit "OD"; lit "UHD"; lit "HD"; lit "SD"; lit "LD"])
             (round_robin 5 4) 0%N in
  m.1.2 = Returned VNone /\
  type_name VNone <> lit "list" /\
  g.1.2 = Returned [VNone; VNone; VNone; VNone; VNone] /\
  map (fun i => last (stdout_lines (session_events i m.1.1)))
    [0; 1; 3]%nat =
    [Some (lit "[OD] ✅ 录制完成: a_b_OD_20260101_120000.flv");
     Some (lit "[UHD] ❌ FFmpeg 错误: connection reset");
     Some (lit "[SD] ❌ 未获取到流地址")].
Proof.
  cbv zeta. split; [vm_compute; reflexivity |].
  split; [vm_compute; discriminate |].
  split; vm_compute; reflexivity.
Qed.

(** The values [gather] collects in that run. *)
Lemma one_result_per_label_mixed_run :
  let g := gather (scripted mixed)
             (map (fun q =>
                     download_live_stream
                       (lit "https://live.douyin.com/901113773259")
                       (lit "downloads") q (Some 600) None)
                [lit "OD"; lit "UHD"; lit "HD"; lit "SD"; lit "LD"])
             (round_robin 5 4) 0%N in
  g.1.2 = Returned [VNone; VNone; VNone; VNone; VNone] /\
  length [VNone; VNone; VNone; VNone; VNone] = 5%nat.
Proof.
  assert (Hg : (gather (scripted mixed)
                  (map (fun q =>
                          download_live_stream
                            (lit "https://live.douyin.com/901113773259")
                            (lit "downloads") q (Some 600) None)
                     [lit "OD"; lit "UHD"; lit "HD"; lit "SD"; lit "LD"])
                  (round_robin 5 4) 0%N).1.2 =
               Returned [VNone; VNone; VNone; VNone; VNone])
    by (vm_compute; reflexivity).
  split; [exact Hg |].
  apply (one_result_per_label (scripted mixed)
           (lit "https://live.douyin.com/901113773259")
           (lit "downloads") (Some 600) None
           [lit "OD"; lit "UHD"; lit "HD"; lit "SD"; lit "LD"]
           (round_robin 5 4) 0%N _ Hg).
Defined.

(** ** Literals and decoding *)

Example lit_ascii : lit "m3u8" = [109; 51; 117; 56]%N.
Proof. reflexivity. Qed.

Example lit_cjk : lit "未开播" = [26410; 24320; 25773]%N.
Proof. reflexivity. Qed.

Example lit_emoji : lit "✅📺" = [9989; 128250]%N.
Proof. reflexivity. Qed.

Example decode_drops_malformed :
  decode_utf8_ignore [x41; xe4; xb8; x42; xff; xe0; x80; x43]%byte =
    [65; 66; 67]%N.
Proof. reflexivity. Qed.

Example str_int_examples :
  str_int 600 = lit "600" /\ str_int 0 = lit "0" /\ str_int (-5) = lit "-5".
Proof. repeat split. Qed.

Example path_examples :
  path_str (path_div (path_of (lit "downloads")) (lit "a_b.flv")) =
    lit "downloads/a_b.flv" /\
  path_str (path_div (path_of (lit "./out//x/")) (lit "a_b.flv")) =
    lit "out/x/a_b.flv" /\
  path_name (path_of (lit "/tmp/a.mp4")) = lit "a.mp4".
Proof. repeat split. Qed.

(** * Further properties *)

(** ** More on one capture session *)

Lemma startswith_refl_app p s : startswith p (p ++ s) = true.
Proof.
  induction p as [| a p IH]; cbn [app startswith]; [reflexivity |].
  rewrite N.eqb_refl. exact IH.
Qed.

(** Every line built by [tagged] starts with the label in brackets. *)
Lemma startswith_label q rest :
  startswith (fstr [lit "["; q; lit "] "]) (tagged q rest) = true.
Proof.
  unfold tagged, fstr. cbn [concat]. rewrite !startswith_app.
  reflexivity.
Qed.

Lemma py_ne_int_false (v : pyval) : py_ne_int v 2 = false -> v = VInt 2.
Proof.
  destruct v as [| [|] | z | s | t r]; simpl; try discriminate.
  unfold py_ne_int. destruct (Z.eqb_spec z 2) as [-> |]; [reflexivity | discriminate].
Qed.

Lemma dict_get_status_live (data : gmap (list N) pyval) :
  py_ne_int (dict_get data (lit "status") (VInt 4)) 2 = false ->
  data !! lit "status" = Some (VInt 2).
Proof.
  intros H. apply py_ne_int_false in H. unfold dict_get in H.
  destruct (data !! lit "status") as [v |]; simpl in H; [congruence | discriminate H].
Qed.

(** When a session raises, and what it has done by then. *)
Lemma session_raise_runs url output_dir quality duration cookies :
  all_runs (fun tr o =>
     (o = Returned VNone <-> contained tr = true) /\
     (forall r, o = Returned r -> r = VNone) /\
     (forall e, o = Raised e ->
        exists ev, last tr = Some ev /\ raised_by ev = Some e /\
                   escapes ev = true))
   (download_live_stream url output_dir quality duration cookies).
Proof.
  walk.
  all: unfold contained.
  all: leaf_hyps.
  all: try reflexivity.
  all: eexists; split; [reflexivity | split; reflexivity].
Qed.

(** A session asks each collaborator at most once, and launches a capture
    process only for a response with status 2 and a stream record with a
    URL. *)
Lemma session_no_retry_runs url output_dir quality duration cookies :
  all_runs (fun tr o =>
     (count is_web tr <= 1)%nat /\
     (count is_app tr <= 1)%nat /\
     (count is_stream_fetch tr <= 1)%nat /\
     (count is_spawn tr <= 1)%nat /\
     (count is_communicate tr <= 1)%nat /\
     (forall cmd, In cmd (spawned tr) ->
        exists data sd,
          In data (omap resolved_by tr) /\
          In sd (omap stream_record_of tr) /\
          py_ne_int (dict_get data (lit "status") (VInt 4)) 2 = false /\
          truthy_str (py_or (flv_url sd) (m3u8_url sd)) = true))
   (download_live_stream url output_dir quality duration cookies).
Proof.
  walk.
  all: leaf_hyps.
  all: try lia.
  all: do 2 eexists; split; [left; reflexivity |];
       split; [left; reflexivity |]; split; [eassumption |].
  all: match goal with E : py_or _ _ = _ |- _ => rewrite E end; reflexivity.
Qed.

(** A stop by the user is reported as a stop; an [Exception] is reported
    once, with its traceback. *)
Lemma session_report_runs url output_dir quality duration cookies :
  all_runs (fun tr o =>
     (contained tr = true -> In KeyboardInterrupt (omap raised_by tr) ->
        o = Returned VNone /\ tracebacks tr = [] /\
        last (stdout_lines tr) = Some (stop_line quality)) /\
     (forall e, In e (tracebacks tr) ->
        tracebacks tr = [e] /\ o = Returned VNone /\
        last tr = Some (EvTraceback e) /\
        exists msg, e = PyException msg /\
          last (stdout_lines tr) =
            Some (tagged quality [lit "❌ 发生错误: "; msg])))
   (download_live_stream url output_dir quality duration cookies).
Proof.
  walk.
  all: unfold contained, tracebacks.
  all: leaf_hyps.
  all: try reflexivity.
  all: eexists; split; reflexivity.
Qed.

(** Every line of a session carries its label. *)
Lemma session_lines_runs url output_dir quality duration cookies :
  all_runs (fun tr o =>
     Forall (fun line =>
               startswith (fstr [lit "["; quality; lit "] "]) line = true \/
               line = stop_line quality)
       (stdout_lines tr))
   (download_live_stream url output_dir quality duration cookies).
Proof.
  walk.
  all: try (unfold AttributeError; cbn [session_handler]; walk).
  all: match goal with |- Forall ?P _ => set (labelled := P) end; simpl.
  all: repeat (apply List.Forall_cons;
               [unfold labelled;
                first [left; apply startswith_label | right; reflexivity] |]).
  all: apply List.Forall_nil.
Qed.

(** An anchor name that is not a string stops the session before any
    launch. *)
Lemma session_anchor_runs url output_dir quality duration cookies :
  all_runs (fun tr o =>
     forall data v, In data (omap resolved_by tr) ->
       dict_get data (lit "anchor_name") (VStr (lit "unknown")) = v ->
       (forall s, v <> VStr s) ->
       spawned tr = [] /\
       (forall ts, In ts (omap timestamp_of tr) ->
          o = Returned VNone /\
          tracebacks tr = [AttributeError v (lit "replace")] /\
          last (stdout_lines tr) =
            Some (tagged quality
                    [lit "❌ 发生错误: ";
                     exn_str (AttributeError v (lit "replace"))])))
   (download_live_stream url output_dir quality duration cookies).
Proof.
  walk.
  all: unfold tracebacks.
  all: leaf_hyps.
  all: try reflexivity.
  all: try (exfalso;
            match goal with
            | H : forall s, _ <> VStr s |- _ => eapply H; eassumption
            end).
  all: match goal with E : dict_get _ _ _ = _ |- _ => rewrite E end;
       reflexivity.
Qed.

(** The command a session launches, from what it was given and what the
    collaborators answered. *)
Lemma session_command_runs url output_dir quality duration cookies :
  all_runs (fun tr o =>
     forall cmd, In cmd (spawned tr) ->
       exists data sd ts anchor u,
         In data (omap resolved_by tr) /\
         In sd (omap stream_record_of tr) /\
         In ts (omap timestamp_of tr) /\
         dict_get data (lit "anchor_name") (VStr (lit "unknown")) =
           VStr anchor /\
         py_or (flv_url sd) (m3u8_url sd) = Some u /\
         cmd = ffmpeg_cmd u
                 (path_str
                    (path_div (path_of output_dir)
                       (output_name (replace_char slash 95 anchor) quality
                          ts (ext_of u))))
                 duration)
   (download_live_stream url output_dir quality duration cookies).
Proof.
  walk.
  all: leaf_hyps.
  all: do 5 eexists; split; [left; reflexivity |];
       split; [left; reflexivity |]; split; [left; reflexivity |];
       split; [eassumption |]; split; [eassumption | reflexivity].
Qed.

(** X1: a session returns [None] exactly when nothing escaped its
    [except] clauses; when it raises, the exception is the one a
    collaborator raised in the session's last effect, either a set-up call
    or a call that raised outside [Exception] and [KeyboardInterrupt]:
    nothing is printed or done after it. *)
Theorem session_raises_only_what_escapes {W : Type}
    (answer : forall X : Type, call X -> W -> result X * W) (w : W)
    url output_dir quality duration cookies :
  let r := exec answer
             (download_live_stream url output_dir quality duration cookies)
             w in
  (r.1.2 = Returned VNone <-> contained r.1.1 = true) /\
  (forall v, r.1.2 = Returned v -> v = VNone) /\
  (forall e, r.1.2 = Raised e ->
     exists ev, last r.1.1 = Some ev /\ raised_by ev = Some e /\
                escapes ev = true).
Proof.
  intros r.
  pose proof (all_runs_exec answer _ _ w
                (session_raise_runs url output_dir quality duration cookies))
    as H.
  exact H.
Qed.

(** The directory cannot be created: the session raises at once. *)
Lemma session_raises_when_mkdir_fails :
  let r := exec (scripted no_dir)
             (download_live_stream room_url (lit "downloads") (lit "HD")
                None None) 0%N in
  exists ev, last r.1.1 = Some ev /\
             raised_by ev =
               Some (PyException (lit "File exists: 'downloads'")) /\
             escapes ev = true.
Proof.
  apply (session_raises_only_what_escapes (scripted no_dir) 0%N room_url
           (lit "downloads") (lit "HD") None None).
  vm_compute. reflexivity.
Defined.

(** X2: a session never retries: it asks the web strategy, the app
    strategy, the stream URL, the process launch and the process end at
    most once each; and it launches a capture process only after a
    response that carries the status 2 and a stream record that holds a
    URL. *)
Theorem session_never_retries {W : Type}
    (answer : forall X : Type, call X -> W -> result X * W) (w : W)
    url output_dir quality duration cookies :
  let r := exec answer
             (download_live_stream url output_dir quality duration cookies)
             w in
  (count is_web r.1.1 <= 1)%nat /\
  (count is_app r.1.1 <= 1)%nat /\
  (count is_stream_fetch r.1.1 <= 1)%nat /\
  (count is_spawn r.1.1 <= 1)%nat /\
  (count is_communicate r.1.1 <= 1)%nat /\
  (forall cmd, In cmd (spawned r.1.1) ->
     exists data sd,
       In data (omap resolved_by r.1.1) /\
       In sd (omap stream_record_of r.1.1) /\
       data !! lit "status" = Some (VInt 2) /\
       present (py_or (flv_url sd) (m3u8_url sd))).
Proof.
  intros r.
  pose proof (all_runs_exec answer _ _ w
                (session_no_retry_runs url output_dir quality duration
                   cookies)) as H.
  cbv beta in H. fold r in H.
  destruct H as (H1 & H2 & H3 & H4 & H5 & H6).
  repeat match goal with |- _ /\ _ => split end; try assumption.
  intros cmd Hc. destruct (H6 cmd Hc) as (data & sd & Hd & Hs & Hst & Hu).
  exists data, sd. repeat match goal with |- _ /\ _ => split end;
    try assumption.
  - apply dict_get_status_live. exact Hst.
  - apply truthy_str_present. exact Hu.
Qed.

(** A live room: one launch, after a response with status 2. *)
Lemma session_never_retries_live :
  let r := exec (scripted live_ok)
             (download_live_stream room_url (lit "downloads") (lit "HD")
                (Some 600) None) 0%N in
  length (spawned r.1.1) = 1%nat /\
  forall cmd, In cmd (spawned r.1.1) ->
    exists data sd,
      In data (omap resolved_by r.1.1) /\
      In sd (omap stream_record_of r.1.1) /\
      data !! lit "status" = Some (VInt 2) /\
      present (py_or (flv_url sd) (m3u8_url sd)).
Proof.
  split; [vm_compute; reflexivity |].
  apply (session_never_retries (scripted live_ok) 0%N room_url
           (lit "downloads") (lit "HD") (Some 600) None).
Defined.

(** X3: a [KeyboardInterrupt] raised inside the [try] block ends the
    session with the stop line and no traceback; a traceback is printed at
    most once, as the session's last effect, for an [Exception], right
    after the error line that carries its message, and the session then
    returns [None]. *)
Theorem stop_and_error_reports {W : Type}
    (answer : forall X : Type, call X -> W -> result X * W) (w : W)
    url output_dir quality duration cookies :
  let r := exec answer
             (download_live_stream url output_dir quality duration cookies)
             w in
  (contained r.1.1 = true -> In KeyboardInterrupt (omap raised_by r.1.1) ->
     r.1.2 = Returned VNone /\ tracebacks r.1.1 = [] /\
     last (stdout_lines r.1.1) = Some (stop_line quality)) /\
  (forall e, In e (tracebacks r.1.1) ->
     tracebacks r.1.1 = [e] /\ r.1.2 = Returned VNone /\
     last r.1.1 = Some (EvTraceback e) /\
     exists msg, e = PyException msg /\
       last (stdout_lines r.1.1) =
         Some (tagged quality [lit "❌ 发生错误: "; msg])).
Proof.
  intros r.
  exact (all_runs_exec answer _ _ w
           (session_report_runs url output_dir quality duration cookies)).
Qed.

(** The user stops the session while it resolves the room. *)
Lemma stop_report_example :
  let r := exec (scripted interrupted)
             (download_live_stream room_url (lit "downloads") (lit "HD")
                None None) 0%N in
  r.1.2 = Returned VNone /\ tracebacks r.1.1 = [] /\
  last (stdout_lines r.1.1) = Some (stop_line (lit "HD")).
Proof.
  apply (stop_and_error_reports (scripted interrupted) 0%N room_url
           (lit "downloads") (lit "HD") None None).
  - vm_compute. reflexivity.
  - vm_compute. left. reflexivity.
Defined.

(** X4: every line a session prints starts with its quality label in
    brackets, the stop line after a line break. *)
Theorem session_lines_are_labelled {W : Type}
    (answer : forall X : Type, call X -> W -> result X * W) (w : W)
    url output_dir quality duration cookies :
  let r := exec answer
             (download_live_stream url output_dir quality duration cookies)
             w in
  Forall (fun line =>
            startswith (fstr [lit "["; quality; lit "] "]) line = true \/
            line = fstr [[newline]; lit "["; quality; lit "] ⏹️ 用户停止录制"])
    (stdout_lines r.1.1).
Proof.
  intros r.
  exact (all_runs_exec answer _ _ w
           (session_lines_runs url output_dir quality duration cookies)).
Qed.

(** X5: when the response holds an anchor name that is not a string
    ([None], a number), the session launches nothing; once it has read the
    clock it fails on [replace], reports that [AttributeError] with its
    traceback and returns [None]. *)
Theorem anchor_name_must_be_a_string {W : Type}
    (answer : forall X : Type, call X -> W -> result X * W) (w : W)
    url output_dir quality duration cookies :
  let r := exec answer
             (download_live_stream url output_dir quality duration cookies)
             w in
  forall data v,
    In data (omap resolved_by r.1.1) ->
    data !! lit "anchor_name" = Some v ->
    (forall s, v <> VStr s) ->
    spawned r.1.1 = [] /\
    (forall ts, In ts (omap timestamp_of r.1.1) ->
       r.1.2 = Returned VNone /\
       tracebacks r.1.1 = [AttributeError v (lit "replace")] /\
       last (stdout_lines r.1.1) =
         Some (tagged quality
                 [lit "❌ 发生错误: "; lit "'"; type_name v;
                  lit "' object has no attribute 'replace'"])).
Proof.
  intros r data v Hin Hv Hns.
  pose proof (all_runs_exec answer _ _ w
                (session_anchor_runs url output_dir quality duration cookies))
    as H.
  cbv beta in H. fold r in H.
  assert (Hget : dict_get data (lit "anchor_name") (VStr (lit "unknown")) = v)
    by (unfold dict_get; rewrite Hv; reflexivity).
  destruct (H data v Hin Hget Hns) as [Hs Hts].
  split; [exact Hs |]. intros ts Hin_ts.
  destruct (Hts ts Hin_ts) as (Ho & Htb & Hl).
  split; [exact Ho |]. split; [exact Htb |].
  rewrite Hl. f_equal. unfold tagged, AttributeError, exn_str, fstr.
  cbn [concat]. rewrite <- !app_assoc. reflexivity.
Qed.

(** A room whose anchor name is [None]. *)
Lemma anchor_name_none_example :
  let r := exec (scripted anchor_none)
             (download_live_stream room_url (lit "downloads") (lit "HD")
                None None) 0%N in
  spawned r.1.1 = [] /\
  (forall ts, In ts (omap timestamp_of r.1.1) ->
     r.1.2 = Returned VNone /\
     tracebacks r.1.1 = [AttributeError VNone (lit "replace")] /\
     last (stdout_lines r.1.1) =
       Some (tagged (lit "HD")
               [lit "❌ 发生错误: "; lit "'"; type_name VNone;
                lit "' object has no attribute 'replace'"])).
Proof.
  apply (anchor_name_must_be_a_string (scripted anchor_none) 0%N room_url
           (lit "downloads") (lit "HD") None None room_anchor_none VNone).
  - vm_compute. left. reflexivity.
  - vm_compute. reflexivity.
  - discriminate.
Defined.

(** ** Output files *)

Lemma startswith_true p : forall s,
  startswith p s = true -> exists t, s = p ++ t.
Proof.
  induction p as [| a p IH]; intros s H.
  - exists s. reflexivity.
  - destruct s as [| b s]; cbn [startswith] in H; [discriminate H |].
    apply andb_true_iff in H as [Hab Hp]. apply N.eqb_eq in Hab. subst b.
    destruct (IH s Hp) as [t ->]. exists t. reflexivity.
Qed.

Lemma endswith_true s suffix :
  endswith s suffix = true -> exists a, s = a ++ suffix.
Proof.
  unfold endswith. intros H. apply startswith_true in H as [t Ht].
  exists (rev t). apply (f_equal (@rev N)) in Ht.
  rewrite rev_involutive, rev_app_distr, rev_involutive in Ht. exact Ht.
Qed.

Lemma endswith_app a suffix : endswith (a ++ suffix) suffix = true.
Proof.
  unfold endswith. rewrite rev_app_distr. apply startswith_refl_app.
Qed.

Lemma contains_app needle a b : contains needle (a ++ needle ++ b) = true.
Proof.
  induction a as [| c a IH].
  - destruct (needle ++ b) eqn:E; cbn [app contains]; rewrite <- E;
      rewrite startswith_refl_app; reflexivity.
  - cbn [app contains]. rewrite IH. apply orb_true_r.
Qed.

(** The test on the end of the URL never decides the extension: a URL
    that ends with [.m3u8] contains [m3u8]. *)
Lemma ext_of_contains stream_url :
  ext_of stream_url =
  if contains (lit "m3u8") stream_url then lit "mp4" else lit "flv".
Proof.
  unfold ext_of.
  destruct (endswith stream_url (lit ".m3u8")) eqn:E; [| reflexivity].
  apply endswith_true in E as [a ->].
  change (lit ".m3u8") with (lit "." ++ lit "m3u8" ++ []).
  rewrite app_assoc, contains_app. reflexivity.
Qed.

Lemma ext_of_cases stream_url :
  ext_of stream_url = lit "mp4" \/ ext_of stream_url = lit "flv".
Proof.
  rewrite ext_of_contains. destruct (contains (lit "m3u8") stream_url); auto.
Qed.

Lemma output_name_split anchor quality timestamp ext :
  output_name anchor quality timestamp ext =
  (anchor ++ lit "_" ++ quality ++ lit "_" ++ timestamp) ++ lit "." ++ ext.
Proof.
  unfold output_name, fstr. cbn [concat]. rewrite app_nil_r, <- !app_assoc.
  reflexivity.
Qed.

Lemma split_slash_nonempty s : split_slash s <> [].
Proof.
  destruct s as [| c s]; cbn [split_slash]; [discriminate |].
  destruct (c =? slash)%N; [discriminate |].
  destruct (split_slash s); discriminate.
Qed.

Lemma split_slash_no_slash s : no_slash s = true -> split_slash s = [s].
Proof.
  induction s as [| c s IH]; [reflexivity |].
  cbn [no_slash forallb]. intros H. apply andb_true_iff in H as [Hc Hs].
  cbn [split_slash]. apply negb_true_iff in Hc. rewrite Hc.
  rewrite (IH Hs). reflexivity.
Qed.

(** The last component of a split string holds all of a suffix without
    slashes. *)
Lemma split_slash_app a s :
  no_slash s = true ->
  exists init l, split_slash (a ++ s) = init ++ [l ++ s].
Proof.
  intros Hs. induction a as [| c a (init & l & IH)].
  - exists [], []. apply split_slash_no_slash. exact Hs.
  - cbn [app split_slash]. destruct (c =? slash)%N.
    + exists ([] :: init), l. rewrite IH. reflexivity.
    + rewrite IH. destruct init as [| p init]; cbn [app].
      * exists [], (c :: l). reflexivity.
      * exists ((c :: p) :: init), l. reflexivity.
Qed.

Lemma join_snoc sep ps x : exists pre, PyStr.join sep (ps ++ [x]) = pre ++ x.
Proof.
  induction ps as [| p ps (pre & IH)].
  - exists []. reflexivity.
  - cbn [app PyStr.join]. destruct (ps ++ [x]) as [| y rest] eqn:E.
    + destruct ps; discriminate E.
    + rewrite IH. exists (p ++ sep ++ pre). rewrite <- !app_assoc.
      reflexivity.
Qed.

Lemma path_str_snoc root ps x :
  exists pre, path_str (MkPath root (ps ++ [x])) = pre ++ x.
Proof.
  destruct (join_snoc [slash] ps x) as [pre Hpre].
  exists (root ++ pre). unfold path_str. cbn [p_root p_parts].
  assert (Hne : ps ++ [x] <> []) by (destruct ps; discriminate).
  destruct root as [| c r].
  - destruct (ps ++ [x]) as [| y rest] eqn:E; [contradiction |].
    exact Hpre.
  - rewrite Hpre, app_assoc. reflexivity.
Qed.

(** A name that ends with a suffix of two characters or more without any
    slash gives a path that ends with the same suffix, whatever the
    directory. *)
Lemma path_str_div_suffix output_dir a s :
  no_slash s = true -> (2 <= length s)%nat ->
  exists pre, path_str (path_div (path_of output_dir) (a ++ s)) = pre ++ s.
Proof.
  intros Hs Hlen.
  destruct (split_slash_app a s Hs) as (init & l & Hsplit).
  assert (Hpart : is_part (l ++ s) = true).
  { destruct s as [| c1 [| c2 s]]; cbn [length] in Hlen; try lia.
    destruct l as [| d1 [| d2 l]]; reflexivity. }
  assert (Hparts : exists ps, p_parts (path_of (a ++ s)) = ps ++ [l ++ s]).
  { unfold path_of. cbn [p_parts]. rewrite Hsplit, filter_app.
    rewrite filter_cons_True by exact Hpart. rewrite filter_nil.
    eexists. reflexivity. }
  destruct Hparts as [ps Hps].
  unfold path_div.
  destruct (p_root (path_of (a ++ s))) as [| c r] eqn:Hroot.
  - rewrite Hps, app_assoc.
    destruct (path_str_snoc (p_root (path_of output_dir))
                (p_parts (path_of output_dir) ++ ps) (l ++ s)) as [pre Hpre].
    exists (pre ++ l). rewrite Hpre, <- app_assoc. reflexivity.
  - destruct (path_of (a ++ s)) as [root parts]. cbn [p_root p_parts] in *.
    subst parts.
    destruct (path_str_snoc root ps (l ++ s)) as [pre Hpre].
    exists (pre ++ l). rewrite Hpre, <- app_assoc. reflexivity.
Qed.

Lemma format_arg_ffmpeg_cmd stream_url output_file duration :
  format_arg (ffmpeg_cmd stream_url output_file duration) =
    Some (if endswith output_file (lit ".mp4") then lit "mp4" else lit "flv") /\
  output_arg (ffmpeg_cmd stream_url output_file duration) = Some output_file.
Proof.
  rewrite ffmpeg_cmd_shape. destruct (truthy_int duration); split; reflexivity.
Qed.

Lemma endswith_mp4 pre ext :
  ext = lit "mp4" \/ ext = lit "flv" ->
  (if endswith (pre ++ lit "." ++ ext) (lit ".mp4") then lit "mp4"
   else lit "flv") = ext.
Proof.
  intros [-> | ->].
  - change (lit "." ++ lit "mp4") with (lit ".mp4").
    rewrite endswith_app. reflexivity.
  - unfold endswith. rewrite rev_app_distr.
    change (rev (lit "." ++ lit "flv")) with [118; 108; 102; 46]%N.
    change (rev (lit ".mp4")) with [52; 112; 109; 46]%N.
    reflexivity.
Qed.

(** X6: the capture command a session launches is the one
    [download_with_ffmpeg] builds for the URL selected from the stream
    record, the session's duration, and the file
    [{anchor}_{quality}_{timestamp}.{ext}] under the output directory,
    where the anchor name comes from the response (or is [unknown] when
    the key is missing) with every slash replaced by an underscore, the
    timestamp is the one read from the clock, and the extension follows
    the URL. *)
Theorem launched_command {W : Type}
    (answer : forall X : Type, call X -> W -> result X * W) (w : W)
    url output_dir quality duration cookies :
  let r := exec answer
             (download_live_stream url output_dir quality duration cookies)
             w in
  forall cmd, In cmd (spawned r.1.1) ->
    exists data sd ts anchor u,
      In data (omap resolved_by r.1.1) /\
      In sd (omap stream_record_of r.1.1) /\
      In ts (omap timestamp_of r.1.1) /\
      default (VStr (lit "unknown")) (data !! lit "anchor_name") =
        VStr anchor /\
      py_or (flv_url sd) (m3u8_url sd) = Some u /\
      cmd = ffmpeg_cmd u
              (path_str
                 (path_div (path_of output_dir)
                    (fstr [replace_char slash 95 anchor; lit "_"; quality;
                           lit "_"; ts; lit "."; ext_of u])))
              duration.
Proof.
  intros r.
  exact (all_runs_exec answer _ _ w
           (session_command_runs url output_dir quality duration cookies)).
Qed.

(** The command of a live room: the slash of the anchor name [a/b] has
    become an underscore. *)
Lemma launched_command_example :
  let r := exec (scripted live_ok)
             (download_live_stream room_url (lit "downloads") (lit "HD")
                (Some 600) None) 0%N in
  spawned r.1.1 =
    [[lit "ffmpeg"; lit "-i"; lit "http://h/s.flv"; lit "-c"; lit "copy";
      lit "-bsf:a"; lit "aac_adtstoasc"; lit "-t"; lit "600";
      lit "-f"; lit "flv"; lit "-y";
      lit "downloads/a_b_HD_20260101_120000.flv"]] /\
  exists data sd ts anchor u,
    In data (omap resolved_by r.1.1) /\
    In sd (omap stream_record_of r.1.1) /\
    In ts (omap timestamp_of r.1.1) /\
    default (VStr (lit "unknown")) (data !! lit "anchor_name") = VStr anchor /\
    py_or (flv_url sd) (m3u8_url sd) = Some u /\
    ffmpeg_cmd (lit "http://h/s.flv")
      (lit "downloads/a_b_HD_20260101_120000.flv") (Some 600) =
    ffmpeg_cmd u
      (path_str
         (path_div (path_of (lit "downloads"))
            (fstr [replace_char slash 95 anchor; lit "_"; lit "HD";
                   lit "_"; ts; lit "."; ext_of u])))
      (Some 600).
Proof.
  split; [vm_compute; reflexivity |].
  apply (launched_command (scripted live_ok) 0%N room_url (lit "downloads")
           (lit "HD") (Some 600) None).
  vm_compute. left. reflexivity.
Defined.

(** X7: the container format passed to the capture process always agrees
    with the extension of the output file, and both follow the stream URL:
    [mp4] exactly when [m3u8] occurs somewhere in the URL, [flv]
    otherwise, whatever the output directory, the anchor name, the label
    and the timestamp. *)
Theorem format_follows_url {W : Type}
    (answer : forall X : Type, call X -> W -> result X * W) (w : W)
    url output_dir quality duration cookies :
  let r := exec answer
             (download_live_stream url output_dir quality duration cookies)
             w in
  forall cmd, In cmd (spawned r.1.1) ->
    exists u pre,
      input_url cmd = Some u /\
      format_arg cmd =
        Some (if contains (lit "m3u8") u then lit "mp4" else lit "flv") /\
      output_arg cmd =
        Some (pre ++ lit "." ++
              (if contains (lit "m3u8") u then lit "mp4" else lit "flv")).
Proof.
  intros r cmd Hc.
  pose proof (all_runs_exec answer _ _ w
                (session_command_runs url output_dir quality duration
                   cookies)) as H.
  cbv beta in H. fold r in H.
  destruct (H cmd Hc) as (data & sd & ts & anchor & u & _ & _ & _ & _ & _ & ->).
  rewrite output_name_split.
  set (stem := replace_char slash 95 anchor ++ lit "_" ++ quality ++
               lit "_" ++ ts).
  assert (Hsuf : no_slash (lit "." ++ ext_of u) = true /\
                 (2 <= length (lit "." ++ ext_of u))%nat)
    by (destruct (ext_of_cases u) as [-> | ->]; split;
        solve [reflexivity | vm_compute; lia]).
  destruct Hsuf as [Hns Hlen].
  destruct (path_str_div_suffix output_dir stem _ Hns Hlen) as [pre Hpre].
  exists u, pre. rewrite input_url_ffmpeg_cmd.
  destruct (format_arg_ffmpeg_cmd u
              (path_str (path_div (path_of output_dir)
                           (stem ++ lit "." ++ ext_of u))) duration)
    as [Hf Ho].
  rewrite Hf, Ho, Hpre, (endswith_mp4 pre _ (ext_of_cases u)).
  rewrite ext_of_contains. repeat split.
Qed.

(** A room whose only URL is a playlist: [mp4]. *)
Lemma format_follows_url_playlist :
  let r := exec (scripted playlist_only)
             (download_live_stream room_url (lit "downloads") (lit "HD")
                None None) 0%N in
  spawned r.1.1 =
    [[lit "ffmpeg"; lit "-i"; lit "http://h/live/index.m3u8"; lit "-c";
      lit "copy"; lit "-bsf:a"; lit "aac_adtstoasc";
      lit "-f"; lit "mp4"; lit "-y";
      lit "downloads/a_b_HD_20260101_120000.mp4"]] /\
  exists u pre,
    input_url (ffmpeg_cmd (lit "http://h/live/index.m3u8")
                 (lit "downloads/a_b_HD_20260101_120000.mp4") None) = Some u /\
    format_arg (ffmpeg_cmd (lit "http://h/live/index.m3u8")
                  (lit "downloads/a_b_HD_20260101_120000.mp4") None) =
      Some (if contains (lit "m3u8") u then lit "mp4" else lit "flv") /\
    output_arg (ffmpeg_cmd (lit "http://h/live/index.m3u8")
                  (lit "downloads/a_b_HD_20260101_120000.mp4") None) =
      Some (pre ++ lit "." ++
            (if contains (lit "m3u8") u then lit "mp4" else lit "flv")).
Proof.
  split; [vm_compute; reflexivity |].
  apply (format_follows_url (scripted playlist_only) 0%N room_url
           (lit "downloads") (lit "HD") None None).
  vm_compute. left. reflexivity.
Defined.

(** ** One file for each label *)

Lemma no_slash_app a b : no_slash (a ++ b) = no_slash a && no_slash b.
Proof. unfold no_slash. apply forallb_app. Qed.

Lemma replace_char_no_slash s : no_slash (replace_char slash 95 s) = true.
Proof.
  unfold no_slash, replace_char. induction s as [| c s IH]; [reflexivity |].
  cbn [map forallb]. rewrite IH, andb_true_r.
  destruct (N.eqb_spec c slash) as [-> | Hne]; [reflexivity |].
  apply negb_true_iff, N.eqb_neq. exact Hne.
Qed.

Lemma join_snoc_uniform sep ps :
  exists pre, forall x, PyStr.join sep (ps ++ [x]) = pre ++ x.
Proof.
  induction ps as [| p ps (pre & IH)].
  - exists []. reflexivity.
  - exists (p ++ sep ++ pre). intros x. cbn [app PyStr.join].
    destruct (ps ++ [x]) as [| y rest] eqn:E.
    + destruct ps; discriminate E.
    + rewrite <- E, IH, <- !app_assoc. reflexivity.
Qed.

(** A file name without slashes is put, as it is, after a prefix that
    only depends on the output directory. *)
Lemma path_str_div_name output_dir :
  exists pre, forall name,
    no_slash name = true -> (2 <= length name)%nat ->
    path_str (path_div (path_of output_dir) name) = pre ++ name /\
    path_name (path_div (path_of output_dir) name) = name.
Proof.
  destruct (join_snoc_uniform [slash] (p_parts (path_of output_dir)))
    as [pre Hpre].
  exists (p_root (path_of output_dir) ++ pre). intros name Hns Hlen.
  assert (Hof : path_of name = MkPath [] [name]).
  { unfold path_of. rewrite (split_slash_no_slash name Hns).
    assert (Hpart : is_part name = true)
      by (destruct name as [| c1 [| c2 name]]; cbn [length] in Hlen;
          try lia; reflexivity).
    rewrite filter_cons_True by exact Hpart. rewrite filter_nil.
    f_equal. destruct name as [| c1 [| c2 name]]; cbn [length] in Hlen;
      try lia.
    cbn [no_slash forallb] in Hns. apply andb_true_iff in Hns as [H1 _].
    apply negb_true_iff in H1. unfold root_of.
    destruct name; rewrite H1; reflexivity. }
  unfold path_div. rewrite Hof. cbn [p_root p_parts]. split.
  - unfold path_str. cbn [p_root p_parts].
    destruct (p_root (path_of output_dir)) as [| c r].
    + destruct (p_parts (path_of output_dir) ++ [name]) eqn:E.
      * destruct (p_parts (path_of output_dir)); discriminate E.
      * rewrite <- E, Hpre. reflexivity.
    + rewrite Hpre, app_assoc. reflexivity.
  - unfold path_name. cbn [p_parts]. rewrite last_snoc. reflexivity.
Qed.

(** X8: two sessions of one room that read the same timestamp and carry
    different labels (without slashes) never write to the same file,
    whatever their stream URLs: the file of each lies in the output
    directory under its own name, and the two names differ by the label. *)
Theorem distinct_labels_distinct_files output_dir anchor timestamp
    (quality1 quality2 url1 url2 : pystr) :
  no_slash quality1 = true -> no_slash quality2 = true ->
  no_slash timestamp = true ->
  quality1 <> quality2 ->
  let file quality stream_url :=
    path_div (path_of output_dir)
      (fstr [replace_char slash 95 anchor; lit "_"; quality; lit "_";
             timestamp; lit "."; ext_of stream_url]) in
  path_str (file quality1 url1) <> path_str (file quality2 url2) /\
  path_name (file quality1 url1) <> path_name (file quality2 url2).
Proof.
  intros H1 H2 Hts Hne file.
  destruct (path_str_div_name output_dir) as [pre Hpre].
  assert (Hname : forall q u, no_slash q = true ->
            no_slash (fstr [replace_char slash 95 anchor; lit "_"; q;
                            lit "_"; timestamp; lit "."; ext_of u]) = true /\
            (2 <= length (fstr [replace_char slash 95 anchor; lit "_"; q;
                                lit "_"; timestamp; lit "."; ext_of u]))%nat).
  { intros q u Hq. unfold fstr. cbn [concat]. split.
    - rewrite !no_slash_app, replace_char_no_slash, Hq, Hts.
      destruct (ext_of_cases u) as [-> | ->]; reflexivity.
    - rewrite !length_app.
      assert (Hext : length (ext_of u) = 3%nat)
        by (destruct (ext_of_cases u) as [-> | ->]; reflexivity).
      rewrite Hext. lia. }
  destruct (Hname quality1 url1 H1) as [Hn1 Hl1].
  destruct (Hname quality2 url2 H2) as [Hn2 Hl2].
  destruct (Hpre _ Hn1 Hl1) as [Hs1 Hb1].
  destruct (Hpre _ Hn2 Hl2) as [Hs2 Hb2].
  assert (Hdiff : fstr [replace_char slash 95 anchor; lit "_"; quality1;
                        lit "_"; timestamp; lit "."; ext_of url1] <>
                  fstr [replace_char slash 95 anchor; lit "_"; quality2;
                        lit "_"; timestamp; lit "."; ext_of url2]).
  { unfold fstr. cbn [concat]. intros E.
    apply app_inv_head in E. apply app_inv_head in E.
    apply app_inj_2 in E as [E _]; [contradiction |].
    rewrite !length_app.
    destruct (ext_of_cases url1) as [-> | ->];
      destruct (ext_of_cases url2) as [-> | ->]; reflexivity. }
  unfold file. rewrite Hs1, Hs2, Hb1, Hb2. split; [| exact Hdiff].
  intros E. apply app_inv_head in E. contradiction.
Qed.

(** The labels [HD] and [SD] at the same second. *)
Lemma distinct_files_hd_sd :
  path_str
    (path_div (path_of (lit "downloads"))
       (fstr [replace_char slash 95 (lit "a/b"); lit "_"; lit "HD"; lit "_";
              lit "20260101_120000"; lit "."; ext_of (lit "http://h/s.flv")])) <>
  path_str
    (path_div (path_of (lit "downloads"))
       (fstr [replace_char slash 95 (lit "a/b"); lit "_"; lit "SD"; lit "_";
              lit "20260101_120000"; lit "."; ext_of (lit "http://h/s.flv")])).
Proof.
  apply (distinct_labels_distinct_files (lit "downloads") (lit "a/b")
           (lit "20260101_120000") (lit "HD") (lit "SD")
           (lit "http://h/s.flv") (lit "http://h/s.flv")).
  - vm_compute. reflexivity.
  - vm_compute. reflexivity.
  - vm_compute. reflexivity.
  - vm_compute. discriminate.
Defined.

(** ** More on the run of [main] *)

Lemma main_events_sessions n tr : sessions_below n tr -> main_events tr = [].
Proof.
  unfold main_events. induction 1 as [| [t ev] tr (i & Ht & _) _ IH];
    [reflexivity |].
  simpl in Ht. subst t. cbn. exact IH.
Qed.

Lemma main_events_app tr1 tr2 :
  main_events (tr1 ++ tr2) = main_events tr1 ++ main_events tr2.
Proof. unfold main_events. apply omap_app. Qed.

Lemma run_schedule_nil {W : Type}
    (answer : forall X : Type, call X -> W -> result X * W) {R : Type}
    (sched : list nat) (w : W) :
  run_schedule answer sched (@nil (coro R)) w = ([], w, []).
Proof. induction sched as [| i sched IH]; [reflexivity | exact IH]. Qed.

(** X9: when [main] returns, it returns [None] and its last effect is the
    completion line, whatever became of the sessions; when it raises, it
    raises what one of the sessions raised and prints no completion
    line. *)
Theorem main_completion_line {W : Type}
    (answer : forall X : Type, call X -> W -> result X * W)
    url output_dir duration cookies (quality_list : list pystr)
    (sched : list nat) (w : W) :
  let m := main_with answer url output_dir duration cookies quality_list
             sched w in
  (forall v, m.1.2 = Returned v ->
     v = VNone /\
     stdout_lines (main_events m.1.1) =
       [banner_line quality_list; done_line] /\
     last m.1.1 = Some (MainTask, EvStdout done_line)) /\
  (forall e, m.1.2 = Raised e ->
     stdout_lines (main_events m.1.1) = [banner_line quality_list] /\
     exists i quality,
       quality_list !! i = Some quality /\
       runs_to (download_live_stream url output_dir quality duration cookies)
         (session_events i m.1.1) (Raise e)).
Proof.
  intros m. subst m. unfold main_with.
  pose proof (gather_sound answer
                (map (fun q => download_live_stream url output_dir q
                                 duration cookies) quality_list) sched w)
    as Hg.
  pose proof (gather_below answer
                (map (fun q => download_live_stream url output_dir q
                                 duration cookies) quality_list) sched w)
    as Hb.
  cbv zeta in Hg.
  destruct (gather answer _ sched w) as [[tr o] w']. cbn [fst snd] in Hg, Hb.
  pose proof (main_events_sessions _ _ Hb) as Hm.
  destruct o as [rs | e]; cbn [fst snd]; split.
  - intros v Hv. inversion Hv; subst. split; [reflexivity |]. split.
    + change ((MainTask, EvStdout ?b) :: tr ++ ?d)
        with ([(MainTask, EvStdout b)] ++ tr ++ d).
      rewrite !main_events_app, Hm. reflexivity.
    + rewrite app_comm_cons, last_snoc. reflexivity.
  - intros e H. discriminate H.
  - intros v H. discriminate H.
  - intros e0 He. inversion He; subst. split.
    + change ((MainTask, EvStdout ?b) :: tr)
        with ([(MainTask, EvStdout b)] ++ tr).
      rewrite main_events_app, Hm. reflexivity.
    + destruct Hg as (i & p & Hp & Hr).
      apply lookup_map_inv in Hp as (quality & Hq & ->).
      exists i, quality. split; [exact Hq |].
      rewrite session_events_main. exact Hr.
Qed.

(** Every session fails to resolve the room: [main] still ends with its
    completion line. *)
Lemma completion_line_after_failures :
  let m := main (scripted both_down) (round_robin 5 4) 0%N in
  map (fun i => session_failed (session_events i m.1.1)) [0; 1; 2; 3; 4]%nat =
    [true; true; true; true; true] /\
  stdout_lines (main_events m.1.1) =
    [banner_line [lit "OD"; lit "UHD"; lit "HD"; lit "SD"; lit "LD"];
     done_line] /\
  last m.1.1 = Some (MainTask, EvStdout done_line).
Proof.
  split; [vm_compute; reflexivity |].
  apply (proj1 (main_completion_line (scripted both_down)
                  (lit "https://live.douyin.com/901113773259")
                  (lit "downloads") (Some 600) None
                  [lit "OD"; lit "UHD"; lit "HD"; lit "SD"; lit "LD"]
                  (round_robin 5 4) 0%N) VNone).
  vm_compute. reflexivity.
Defined.

(** X10: with no label at all, [main] asks nothing of the collaborators
    under any schedule: it prints its banner for zero qualities and its
    completion line, and returns [None]. *)
Theorem main_without_labels {W : Type}
    (answer : forall X : Type, call X -> W -> result X * W)
    url output_dir duration cookies (sched : list nat) (w : W) :
  main_with answer url output_dir duration cookies [] sched w =
    ([(MainTask,
       EvStdout (fstr [[newline]; lit "🚀 开始并发录制 "; lit "0";
                       lit " 个画质: "; []; [newline]]));
      (MainTask, EvStdout done_line)],
     Returned VNone, w).
Proof.
  unfold main_with, gather, run_pool. cbn [map].
  rewrite run_schedule_nil. reflexivity.
Qed.

(** ** Collaborators without memory *)

Section Memoryless.

Context {W : Type}.
Variable answer : forall X : Type, call X -> W -> result X * W.
Variable ans : forall X : Type, call X -> result X.
Hypothesis answer_ans : forall X (c : call X) w, (answer X c w).1 = ans X c.

Lemma exec_answered {R : Type} (p : coro R) :
  forall w, Forall (answered_by ans) (exec answer p w).1.1.
Proof.
  induction p as [r | e | line k IH | e k IH | X c k IH]; intros w;
    cbn [exec].
  - constructor.
  - constructor.
  - specialize (IH w). destruct (exec answer k w) as [[tr o] w'].
    constructor; [exact I | exact IH].
  - specialize (IH w). destruct (exec answer k w) as [[tr o] w'].
    constructor; [exact I | exact IH].
  - pose proof (answer_ans X c w) as Ha.
    destruct (answer X c w) as [a w1]. cbn [fst] in Ha.
    specialize (IH a w1). destruct (exec answer (k a) w1) as [[tr o] w'].
    constructor; [exact Ha | exact IH].
Qed.

Lemma step_answered {R : Type} (p : coro R) w :
  Forall (answered_by ans) (step answer p w).2.
Proof.
  destruct p as [r | e | line k | e k | X c k]; cbn [step snd];
    try (repeat constructor).
  pose proof (answer_ans X c w) as Ha.
  destruct (answer X c w) as [a w1]. cbn [fst] in Ha.
  repeat constructor. exact Ha.
Qed.

Lemma tag_answered i evs :
  Forall (answered_by ans) evs ->
  Forall (fun te => answered_by ans (snd te)) (tag i evs).
Proof.
  unfold tag. induction 1; cbn [map]; constructor; assumption.
Qed.

Lemma run_schedule_answered {R : Type} (sched : list nat) :
  forall (pool : list (coro R)) w,
    Forall (fun te => answered_by ans (snd te))
      (run_schedule answer sched pool w).2.
Proof.
  induction sched as [| i sched IH]; intros pool w; cbn [run_schedule].
  - constructor.
  - destruct (existsb is_raise pool); [constructor |].
    destruct (pool !! i) as [q |]; [| apply IH].
    pose proof (step_answered q w) as Hs.
    destruct (step answer q w) as [[q' w1] evs]. cbn [snd] in Hs.
    specialize (IH (<[i:=q']> pool) w1).
    destruct (run_schedule answer sched (<[i:=q']> pool) w1)
      as [[pool1 w2] tr1]. cbn [snd] in *.
    apply Forall_app. split; [apply tag_answered; exact Hs | exact IH].
Qed.

Lemma drain_answered {R : Type} (todo : list (coro R)) :
  forall i w,
    Forall (fun te => answered_by ans (snd te)) (drain answer i todo w).2.
Proof.
  induction todo as [| q todo IH]; intros i w; cbn [drain].
  - constructor.
  - pose proof (exec_answered q w) as He.
    destruct (exec answer q w) as [[tr1 o] w1]. cbn [fst] in He.
    destruct o as [r | e].
    + specialize (IH (S i) w1).
      destruct (drain answer (S i) todo w1) as [[rest' w2] tr2].
      cbn [snd] in *. apply Forall_app.
      split; [apply tag_answered; exact He | exact IH].
    + cbn [snd]. apply tag_answered. exact He.
Qed.

Lemma gather_answered {R : Type} (tasks : list (coro R)) sched w :
  Forall (fun te => answered_by ans (snd te))
    (gather answer tasks sched w).1.1.
Proof.
  unfold gather, run_pool.
  pose proof (run_schedule_answered sched tasks w) as H1.
  destruct (run_schedule answer sched tasks w) as [[pool1 w1] tr1].
  cbn [snd] in H1.
  destruct (existsb is_raise pool1).
  - destruct (first_raised pool1); exact H1.
  - pose proof (drain_answered pool1 0 w1) as H2.
    destruct (drain answer 0 pool1 w1) as [[pool2 w2] tr2]. cbn [snd] in H2.
    destruct (first_raised pool2); cbn [fst]; apply Forall_app; split;
      assumption.
Qed.

Lemma session_events_answered i tr :
  Forall (fun te => answered_by ans (snd te)) tr ->
  Forall (answered_by ans) (session_events i tr).
Proof.
  unfold session_events. induction 1 as [| [t ev] tr Hev _ IH];
    [constructor |].
  cbn. destruct t as [| j]; [exact IH |].
  destruct (Nat.eqb j i); cbn; [constructor; assumption | exact IH].
Qed.

(** With such collaborators a complete run is decided by the coroutine
    alone. *)
Lemma runs_to_exec {R : Type} (p : coro R) :
  forall evs o w,
    runs_to p evs (ended o) -> Forall (answered_by ans) evs ->
    (exec answer p w).1.1 = evs /\ (exec answer p w).1.2 = o.
Proof.
  induction p as [r | e | line k IH | e k IH | X c k IH];
    intros evs o w Hr Ha; cbn [runs_to] in Hr; cbn [exec].
  - destruct Hr as [[-> Ho] | []]. destruct o; inversion Ho; subst.
    split; reflexivity.
  - destruct Hr as [[-> Ho] | []]. destruct o; inversion Ho; subst.
    split; reflexivity.
  - destruct Hr as [[_ Ho] | (evs' & -> & Hr)]; [destruct o; discriminate |].
    apply Forall_cons in Ha as [_ Ha].
    destruct (IH evs' o w Hr Ha) as [Ht Ho].
    destruct (exec answer k w) as [[tr o'] w']. cbn [fst snd] in *.
    subst. split; reflexivity.
  - destruct Hr as [[_ Ho] | (evs' & -> & Hr)]; [destruct o; discriminate |].
    apply Forall_cons in Ha as [_ Ha].
    destruct (IH evs' o w Hr Ha) as [Ht Ho].
    destruct (exec answer k w) as [[tr o'] w']. cbn [fst snd] in *.
    subst. split; reflexivity.
  - destruct Hr as [[_ Ho] | (a & evs' & -> & Hr)];
      [destruct o; discriminate |].
    apply Forall_cons in Ha as [Hc Ha]. cbn [answered_by] in Hc.
    pose proof (answer_ans X c w) as Hw.
    destruct (answer X c w) as [a' w1]. cbn [fst] in Hw.
    rewrite <- Hc in Hw. clear Hc. subst a'.
    destruct (IH a evs' o w1 Hr Ha) as [Ht Ho].
    destruct (exec answer (k a) w1) as [[tr o'] w'] eqn:Ee.
    cbn [fst snd] in Ht, Ho. cbn [fst snd]. subst tr o'.
    split; reflexivity.
Qed.

(** X11: with collaborators whose answers do not depend on what happened
    before, the schedule does not matter: in every run of [main] that
    returns, the effects of each session are those of the session run
    alone, and so are the same under any two schedules. *)
Theorem schedule_independence url output_dir duration cookies
    (quality_list : list pystr) (sched : list nat) (w : W) :
  let m := main_with answer url output_dir duration cookies quality_list
             sched w in
  forall v, m.1.2 = Returned v ->
    forall i quality, quality_list !! i = Some quality ->
      session_events i m.1.1 =
        (exec answer
           (download_live_stream url output_dir quality duration cookies)
           w).1.1 /\
      (exec answer
         (download_live_stream url output_dir quality duration cookies)
         w).1.2 = Returned VNone.
Proof.
  intros m v Hv i quality Hq.
  destruct (main_with_gather answer url output_dir duration cookies
              quality_list sched w) as (Ho & Hev & _).
  fold m in Ho, Hev.
  set (tasks := map (fun q => download_live_stream url output_dir q
                                duration cookies) quality_list) in *.
  pose proof (gather_sound answer tasks sched w) as Hg. cbv zeta in Hg.
  pose proof (gather_answered tasks sched w) as Ha.
  set (g := gather answer tasks sched w) in *.
  destruct (g.1.2) as [rs | e]; [| rewrite Ho in Hv; discriminate Hv].
  destruct Hg as [_ Hall].
  destruct (Hall i _ (lookup_map_Some _ _ _ _ Hq)) as (r & _ & Hr).
  pose proof (all_runs_sound _ _ _ (Returned r)
                (session_contained_runs url output_dir quality duration
                   cookies) Hr) as [Hret _].
  destruct (Hret r eq_refl) as [-> _].
  rewrite Hev.
  destruct (runs_to_exec _ _ (Returned VNone) w Hr
              (session_events_answered i _ Ha)) as [Ht Hout].
  split; [symmetry; exact Ht | exact Hout].
Qed.

End Memoryless.

(** The second session of [main] under a round-robin schedule, and run
    alone. *)
Lemma schedule_independence_example :
  let m := main (fixed mixed) (round_robin 5 4) tt in
  session_events 1 m.1.1 =
    (exec (fixed mixed)
       (download_live_stream (lit "https://live.douyin.com/901113773259")
          (lit "downloads") (lit "UHD") (Some 600) None) tt).1.1.
Proof.
  apply (schedule_independence (fixed mixed) (fixed_answers mixed)
           (fun X c w => eq_refl)
           (lit "https://live.douyin.com/901113773259") (lit "downloads")
           (Some 600) None
           [lit "OD"; lit "UHD"; lit "HD"; lit "SD"; lit "LD"]
           (round_robin 5 4) tt VNone).
  - vm_compute. reflexivity.
  - reflexivity.
Defined.

(** ** [download_with_requests] *)

Lemma receive_spec (items : list item) :
  forall total_size,
    concat (receive items total_size).1.1.2 = concat (delivered items) /\
    (receive items total_size).1.2 =
      total_size + Z.of_nat (length (concat (delivered items))) /\
    (receive items total_size).2 = breaks items.
Proof.
  induction items as [| [data | e] items IH]; intros total_size.
  - cbn. repeat split. lia.
  - destruct data as [| b data].
    + cbn [receive delivered breaks concat app]. apply IH.
    + cbn [receive delivered breaks].
      destruct (IH (total_size + Z.of_nat (length (b :: data))))
        as (Hw & Hf & He).
      destruct (receive items (total_size + Z.of_nat (length (b :: data))))
        as [[[lines written] final] err].
      cbn [fst snd] in *. cbn [concat]. rewrite Hw, Hf, He.
      repeat split. rewrite length_app. lia.
  - cbn. repeat split. lia.
Qed.

(** X12: once the import, the request, the status check and the opening
    of the file have succeeded, the output file holds the chunks
    delivered before the iteration broke, in order and nothing else, also
    when the download fails half-way; and a download that is not broken
    returns [None] after a completion line that gives the size of that
    file. *)
Theorem downloaded_file stream_url output_file (items : list item) :
  let d := download_with_requests stream_url output_file (delivers items) in
  d_file d = Some (concat (delivered items)) /\
  (breaks items = None ->
     d_outcome d = Returned VNone /\
     last (d_lines d) =
       Some (fstr [lit "✅ 下载完成: "; output_file; lit " (";
                   mb_2f (Z.of_nat (length (concat (delivered items))));
                   lit " MB)"])).
Proof.
  unfold download_with_requests, delivers. cbn [x_import x_get x_status x_open x_items].
  destruct (receive_spec items 0) as (Hw & Hf & He).
  destruct (receive items 0) as [[[lines written] final] err].
  cbn [fst snd] in *. subst err final.
  destruct (breaks items) as [e |].
  - split; [| discriminate].
    destruct e; cbn [on_error d_file]; rewrite Hw; reflexivity.
  - cbn [d_file d_outcome d_lines]. rewrite Hw. split; [reflexivity |].
    intros _. split; [reflexivity |]. rewrite last_snoc. reflexivity.
Qed.

(** Three bytes in two chunks, an empty chunk between them. *)
Lemma downloaded_file_example :
  let d := download_with_requests (lit "http://h/s.flv") (lit "a.flv")
             (delivers [Chunk ["a"%byte]; Chunk [];
                        Chunk ["b"%byte; "c"%byte]]) in
  d_file d = Some ["a"%byte; "b"%byte; "c"%byte] /\
  d_outcome d = Returned VNone /\
  last (d_lines d) = Some (lit "✅ 下载完成: a.flv (0.00 MB)").
Proof.
  pose proof (downloaded_file (lit "http://h/s.flv") (lit "a.flv")
                [Chunk ["a"%byte]; Chunk []; Chunk ["b"%byte; "c"%byte]])
    as [Hf Hl].
  split; [exact Hf |]. apply Hl. reflexivity.
Defined.

(** X13: [download_with_requests] turns the first [Exception] of the
    request, the status check, the opening of the file or the transfer
    into one error line and returns [None]; it raises only what is not
    an [Exception], and whatever the import raises, for the import stands
    before the [try] block; the file is left untouched when the failure
    comes before it is opened. *)
Theorem download_failures stream_url output_file (x : exchange) :
  let d := download_with_requests stream_url output_file x in
  (forall e, x_import x = Err e ->
     d_outcome d = Raised e /\ d_lines d = [] /\ d_file d = None) /\
  (x_import x = Ok tt ->
     (failure x = None ->
        d_outcome d = Returned VNone /\
        exists size,
          last (d_lines d) =
            Some (fstr [lit "✅ 下载完成: "; output_file; lit " (";
                        mb_2f size; lit " MB)"])) /\
     (forall msg, failure x = Some (PyException msg) ->
        d_outcome d = Returned VNone /\
        last (d_lines d) = Some (fstr [lit "❌ 下载错误: "; msg])) /\
     (forall e, failure x = Some e -> is_Exception e = false ->
        d_outcome d = Raised e) /\
     (d_file d = None <->
        exists e, x_get x = Err e \/
                  (x_get x = Ok tt /\ x_status x = Err e) \/
                  (x_get x = Ok tt /\ x_status x = Ok tt /\
                   x_open x = Err e))).
Proof.
  unfold download_with_requests, failure.
  destruct x as [imp get status opn items].
  cbn [x_import x_get x_status x_open x_items].
  split.
  - intros e ->. repeat split.
  - intros ->.
    destruct get as [[] | eg]; [destruct status as [[] | es];
      [destruct opn as [[] | eo] | ] | ].
    + destruct (receive_spec items 0) as (_ & _ & He).
      destruct (receive items 0) as [[[lines written] final] err].
      cbn [fst snd] in He. subst err.
      destruct (breaks items) as [e |].
      * split; [discriminate |]. split; [| split].
        -- intros msg H. inversion H; subst. cbn [on_error d_outcome d_lines].
           split; [reflexivity | apply last_snoc].
        -- intros e0 H Hne. inversion H; subst.
           destruct e0; [discriminate Hne | reflexivity | reflexivity].
        -- split.
           ++ destruct e; discriminate.
           ++ intros (e0 & [H | [[_ H] | (_ & _ & H)]]); discriminate H.
      * split; [| split; [discriminate | split; [discriminate |]]].
        -- intros _. split; [reflexivity |]. exists final.
           cbn [d_lines]. apply last_snoc.
        -- split.
           ++ discriminate.
           ++ intros (e0 & [H | [[_ H] | (_ & _ & H)]]); discriminate H.
    + split; [discriminate |]. split; [| split].
      * intros msg H. inversion H; subst.
        split; [reflexivity | reflexivity].
      * intros e0 H Hne. inversion H; subst.
        destruct e0; [discriminate Hne | reflexivity | reflexivity].
      * split.
        -- intros _. exists eo. right. right.
           repeat split.
        -- intros _. destruct eo; reflexivity.
    + split; [discriminate |]. split; [| split].
      * intros msg H. inversion H; subst.
        split; [reflexivity | reflexivity].
      * intros e0 H Hne. inversion H; subst.
        destruct e0; [discriminate Hne | reflexivity | reflexivity].
      * split.
        -- intros _. exists es. right. left.
           repeat split.
        -- intros _. destruct es; reflexivity.
    + split; [discriminate |]. split; [| split].
      * intros msg H. inversion H; subst.
        split; [reflexivity | reflexivity].
      * intros e0 H Hne. inversion H; subst.
        destruct e0; [discriminate Hne | reflexivity | reflexivity].
      * split.
        -- intros _. exists eg. left. reflexivity.
        -- intros _. destruct eg; reflexivity.
Qed.

(** The request times out: one error line, no file. *)
Lemma download_failures_timeout :
  let d := download_with_requests (lit "http://h/s.flv") (lit "a.flv")
             (MkExchange (Ok tt) (Err (PyException (lit "Read timed out")))
                (Ok tt) (Ok tt) []) in
  d_outcome d = Returned VNone /\
  last (d_lines d) = Some (lit "❌ 下载错误: Read timed out") /\
  d_file d = None.
Proof.
  pose proof (download_failures (lit "http://h/s.flv") (lit "a.flv")
                (MkExchange (Ok tt)
                   (Err (PyException (lit "Read timed out")))
                   (Ok tt) (Ok tt) [])) as [_ H].
  destruct (H eq_refl) as (_ & Hmsg & _ & Hfile).
  destruct (Hmsg (lit "Read timed out") eq_refl) as [Ho Hl].
  split; [exact Ho |]. split; [exact Hl |].
  apply Hfile. eexists. left. reflexivity.
Defined.

(** *** Progress lines *)

Lemma is_progress_line total_size :
  is_progress (progress_line total_size) = true.
Proof. reflexivity. Qed.

(** With full chunks the total is a multiple of the chunk size, and the
    progress test holds at the multiples of 10 MiB only. *)
Lemma progress_test_full k :
  0 <= k ->
  ((8192 * (k + 1)) mod (10 * 1024 * 1024) <? 8192) =
  ((k + 1) mod 1280 =? 0).
Proof.
  intros Hk.
  replace (10 * 1024 * 1024) with (8192 * 1280) by reflexivity.
  rewrite Z.mul_mod_distr_l by lia.
  assert (Hb : 0 <= (k + 1) mod 1280 < 1280)
    by (apply Z.mod_pos_bound; lia).
  destruct (Z.eqb_spec ((k + 1) mod 1280) 0) as [E | E].
  - rewrite E. reflexivity.
  - apply Z.ltb_ge. lia.
Qed.

Lemma receive_full (chunks : list bytes) :
  Forall (fun c => Z.of_nat (length c) = 8192) chunks ->
  forall k, 0 <= k ->
    Forall (fun line => is_progress line = true)
      (receive (map Chunk chunks) (8192 * k)).1.1.1 /\
    Z.of_nat (length (receive (map Chunk chunks) (8192 * k)).1.1.1) =
      (k + Z.of_nat (length chunks)) / 1280 - k / 1280.
Proof.
  induction 1 as [| c chunks Hc _ IH]; intros k Hk.
  - cbn. split; [constructor | rewrite Z.add_0_r; lia].
  - destruct c as [| b c]; [discriminate Hc |].
    cbn [map receive]. rewrite Hc.
    replace (8192 * k + 8192) with (8192 * (k + 1)) by lia.
    assert (Hk1 : 0 <= k + 1) by lia.
    destruct (IH (k + 1) Hk1) as [Hp Hn].
    destruct (receive (map Chunk chunks) (8192 * (k + 1)))
      as [[[lines written] final] err].
    cbn [fst snd] in *. rewrite (progress_test_full k Hk).
    replace (k + Z.of_nat (length (_ :: chunks)))
      with (k + 1 + Z.of_nat (length chunks)) by (cbn [length]; lia).
    destruct (Z.eqb_spec ((k + 1) mod 1280) 0) as [E | E].
    + split; [constructor; [apply is_progress_line | exact Hp] |].
      cbn [length]. rewrite Nat2Z.inj_succ, Hn.
      Z.div_mod_to_equations. lia.
    + split; [exact Hp |]. rewrite Hn.
      Z.div_mod_to_equations. lia.
Qed.

Lemma filter_all {A : Type} (f : A -> bool) (l : list A) :
  Forall (fun x => f x = true) l -> List.filter f l = l.
Proof.
  induction 1 as [| x l Hx _ IH]; [reflexivity |].
  cbn. rewrite Hx, IH. reflexivity.
Qed.

(** X14: when every chunk is a full one of 8192 bytes, a download that is
    not broken prints one progress line for every 10 MiB received: as
    many as the number of chunks divided by 1280. *)
Theorem progress_every_ten_mib stream_url output_file (chunks : list bytes) :
  Forall (fun c => Z.of_nat (length c) = 8192) chunks ->
  let d := download_with_requests stream_url output_file
             (delivers (map Chunk chunks)) in
  Z.of_nat (length (List.filter is_progress (d_lines d))) =
    Z.of_nat (length chunks) / 1280.
Proof.
  intros Hfull d. subst d.
  unfold download_with_requests, delivers.
  cbn [x_import x_get x_status x_open x_items].
  destruct (receive_full chunks Hfull 0 (Z.le_refl 0)) as [Hp Hn].
  destruct (receive_spec (map Chunk chunks) 0) as (_ & _ & He).
  change (8192 * 0) with 0 in Hp, Hn.
  destruct (receive (map Chunk chunks) 0) as [[[lines written] final] err].
  cbn [fst snd] in *.
  assert (Hb : breaks (map Chunk chunks) = None)
    by (clear; induction chunks; [reflexivity | assumption]).
  rewrite Hb in He. subst err. cbn [d_lines].
  rewrite !List.filter_app. cbn [List.filter].
  change (is_progress (fstr [lit "📥 开始下载到: "; output_file])) with false.
  change (is_progress
            (fstr [lit "✅ 下载完成: "; output_file; lit " (";
                   mb_2f final; lit " MB)"])) with false.
  cbn [app]. rewrite app_nil_r, (filter_all _ _ Hp), Hn.
  change (0 / 1280) with 0. rewrite Z.sub_0_r, Z.add_0_l. reflexivity.
Qed.

(** Ten MiB in 1280 full chunks: one progress line. *)
Lemma progress_every_ten_mib_example :
  let d := download_with_requests (lit "http://h/s.flv") (lit "a.flv")
             (delivers
                (map Chunk
                   (repeat (repeat "a"%byte (Z.to_nat 8192)) 1280))) in
  Z.of_nat (length (List.filter is_progress (d_lines d))) =
    Z.of_nat (length (repeat (repeat "a"%byte (Z.to_nat 8192)) 1280)) / 1280.
Proof.
  apply (progress_every_ten_mib (lit "http://h/s.flv") (lit "a.flv")
           (repeat (repeat "a"%byte (Z.to_nat 8192)) 1280)).
  apply Forall_forall. intros c Hc.
  apply list_elem_of_In, repeat_spec in Hc. subst c.
  rewrite repeat_length. reflexivity.
Defined.

Lemma receive_small (chunks : list bytes) :
  forall total_size,
    0 <= total_size ->
    Forall (fun c => c <> []) chunks ->
    total_size + Z.of_nat (length (concat chunks)) < 8192 ->
    Forall (fun line => is_progress line = true)
      (receive (map Chunk chunks) total_size).1.1.1 /\
    length (receive (map Chunk chunks) total_size).1.1.1 = length chunks.
Proof.
  induction chunks as [| c chunks IH]; intros total_size H0 Hne Hlt.
  - cbn. split; [constructor | reflexivity].
  - apply Forall_cons in Hne as [Hc Hne].
    destruct c as [| b c]; [contradiction Hc; reflexivity |].
    cbn [map receive]. cbn [concat] in Hlt. rewrite length_app in Hlt.
    assert (H1 : 0 <= total_size + Z.of_nat (length (b :: c))) by lia.
    assert (H2 : total_size + Z.of_nat (length (b :: c)) +
                 Z.of_nat (length (concat chunks)) < 8192) by lia.
    destruct (IH _ H1 Hne H2) as [Hp Hn].
    destruct (receive (map Chunk chunks)
                (total_size + Z.of_nat (length (b :: c))))
      as [[[lines written] final] err].
    cbn [fst snd] in *.
    assert (Hm : ((total_size + Z.of_nat (length (b :: c)))
                    mod (10 * 1024 * 1024) <? 8192) = true).
    { apply Z.ltb_lt. rewrite Z.mod_small; lia. }
    rewrite Hm. split; [constructor; [apply is_progress_line | exact Hp] |].
    cbn [length]. rewrite Hn. reflexivity.
Qed.

(** X15: the progress test also holds at the start of a download: while
    fewer than 8192 bytes have arrived, every chunk that is not empty
    prints a progress line of its own. *)
Theorem progress_for_each_small_chunk stream_url output_file
    (chunks : list bytes) :
  Forall (fun c => c <> []) chunks ->
  Z.of_nat (length (concat chunks)) < 8192 ->
  let d := download_with_requests stream_url output_file
             (delivers (map Chunk chunks)) in
  length (List.filter is_progress (d_lines d)) = length chunks.
Proof.
  intros Hne Hlt d. subst d.
  unfold download_with_requests, delivers.
  cbn [x_import x_get x_status x_open x_items].
  destruct (receive_small chunks 0 (Z.le_refl 0) Hne Hlt) as [Hp Hn].
  destruct (receive_spec (map Chunk chunks) 0) as (_ & _ & He).
  destruct (receive (map Chunk chunks) 0) as [[[lines written] final] err].
  cbn [fst snd] in *.
  assert (Hb : breaks (map Chunk chunks) = None)
    by (clear; induction chunks; [reflexivity | assumption]).
  rewrite Hb in He. subst err. cbn [d_lines].
  rewrite !List.filter_app. cbn [List.filter].
  change (is_progress (fstr [lit "📥 开始下载到: "; output_file])) with false.
  change (is_progress
            (fstr [lit "✅ 下载完成: "; output_file; lit " (";
                   mb_2f final; lit " MB)"])) with false.
  cbn [app]. rewrite app_nil_r, (filter_all _ _ Hp). exact Hn.
Qed.

(** Three chunks of one byte: three progress lines. *)
Lemma progress_for_each_small_chunk_example :
  let d := download_with_requests (lit "http://h/s.flv") (lit "a.flv")
             (delivers (map Chunk [["a"%byte]; ["b"%byte]; ["c"%byte]])) in
  length (List.filter is_progress (d_lines d)) = 3%nat.
Proof.
  apply (progress_for_each_small_chunk (lit "http://h/s.flv") (lit "a.flv")
           [["a"%byte]; ["b"%byte]; ["c"%byte]]).
  - repeat constructor; discriminate.
  - vm_compute. reflexivity.
Defined.
